(** * BizForge AI service: the text fallback chain, the JSON extractor and the
    image cascade of [backend/ai_service.py], as a shallow embedding.

    Conventions of the model.

    - A Python [str] is a Rocq [string] holding the UTF-8 bytes of the text.
      All delimiters the code looks for (brackets, commas, quotes, the hash
      sign, the label Prompt:) are ASCII, so searching, splitting and replacing
      act on the bytes exactly as they act on the characters; [len] and
      slicing count characters, that is bytes that are not UTF-8 continuation
      bytes ([py_len], [py_take]).
    - Python exceptions are values of [exn]; a computation that may raise
      returns a [result].
    - Calls to the providers, to the network and to the file system are
      answered by an environment [env] and recorded, in order, in a log of
      [event]s that is threaded through the computation ([M]).
    - Console output ([print], [traceback.format_exc]) is not modelled. *)

From Stdlib Require Import String Ascii List ZArith NArith Bool Arith Lia.
Import ListNotations.

Set Warnings "-register-all".

Local Open Scope string_scope.
Local Open Scope list_scope.

(** ** Python strings *)

Module PyStr.

(** The double quote character, and the line feed. *)
Definition dq : string := String (ascii_of_nat 34) EmptyString.
Definition nl : string := String (ascii_of_nat 10) EmptyString.

Definition code (c : ascii) : N := N_of_ascii c.

Definition chr (n : N) : ascii := ascii_of_N n.

Fixpoint rev_onto (s acc : string) : string :=
  match s with
  | EmptyString => acc
  | String c s' => rev_onto s' (String c acc)
  end.

Definition rev (s : string) : string := rev_onto s EmptyString.

Definition is_empty (s : string) : bool :=
  match s with EmptyString => true | _ => false end.

(** [s.startswith(p)] *)
Fixpoint startswith (p s : string) : bool :=
  match p, s with
  | EmptyString, _ => true
  | String a p', String b s' => Ascii.eqb a b && startswith p' s'
  | String _ _, EmptyString => false
  end.

(** [sub in s] for a one-character [sub]. *)
Fixpoint contains_char (c : ascii) (s : string) : bool :=
  match s with
  | EmptyString => false
  | String a s' => Ascii.eqb a c || contains_char c s'
  end.

(** A UTF-8 continuation byte, 10xxxxxx. *)
Definition is_continuation (c : ascii) : bool :=
  (128 <=? code c)%N && (code c <? 192)%N.

(** [len(s)]: the number of characters, one per byte that starts one. *)
Fixpoint py_len (s : string) : nat :=
  match s with
  | EmptyString => 0
  | String c s' => if is_continuation c then py_len s' else S (py_len s')
  end.

(** The continuation bytes at the head of [s]. *)
Fixpoint take_continuation (s : string) : string :=
  match s with
  | String c s' =>
      if is_continuation c then String c (take_continuation s') else EmptyString
  | EmptyString => EmptyString
  end.

(** [s[:n]]: the first [n] characters, each with its continuation bytes. *)
Fixpoint py_take (n : nat) (s : string) : string :=
  match n, s with
  | 0, _ => EmptyString
  | S _, EmptyString => EmptyString
  | S n', String c s' =>
      if is_continuation c then String c (py_take n s')
      else String c (match n' with
                     | 0 => take_continuation s'
                     | S _ => py_take n' s'
                     end)
  end.

(** [s.replace(old, new)] for a non-empty [old]: occurrences are replaced from
    the left and do not overlap. [skip] counts the bytes of an occurrence that
    are still to be dropped. *)
Fixpoint replace_from (old new : string) (skip : nat) (s : string) : string :=
  match s with
  | EmptyString => EmptyString
  | String c s' =>
      match skip with
      | S k => replace_from old new k s'
      | 0 =>
          if startswith old s
          then new ++ replace_from old new (String.length old - 1) s'
          else String c (replace_from old new 0 s')
      end
  end.

Definition replace (old new s : string) : string := replace_from old new 0 s.

(** [s.split(sep)] for a one-character [sep]: never empty, one more piece than
    there are separators. *)
Fixpoint split_onto (sep : ascii) (s : string) (cur : string) : list string :=
  match s with
  | EmptyString => [rev cur]
  | String c s' =>
      if Ascii.eqb c sep then rev cur :: split_onto sep s' EmptyString
      else split_onto sep s' (String c cur)
  end.

Definition split (sep : ascii) (s : string) : list string :=
  split_onto sep s EmptyString.

(** [sep.join(l)] *)
Fixpoint join (sep : string) (l : list string) : string :=
  match l with
  | [] => EmptyString
  | [x] => x
  | x :: l' => x ++ sep ++ join sep l'
  end.

(** White space in the sense of [str.isspace], which [str.strip()] removes:
    U+0009..000D, U+001C..001F, U+0020, U+0085, U+00A0, U+1680, U+2000..200A,
    U+2028, U+2029, U+202F, U+205F, U+3000. [lstrip] reads their UTF-8
    encodings from the left. *)
Definition is_ascii_space (c : ascii) : bool :=
  let n := code c in
  ((9 <=? n) && (n <=? 13) || (28 <=? n) && (n <=? 32))%N.

Fixpoint lstrip (s : string) : string :=
  match s with
  | EmptyString => EmptyString
  | String c s1 =>
      if is_ascii_space c then lstrip s1
      else
        match s1 with
        | String c1 s2 =>
            if ((code c =? 194) && ((code c1 =? 133) || (code c1 =? 160)))%N
            then lstrip s2
            else
              match s2 with
              | String c2 s3 =>
                  let a := code c in
                  let b := code c1 in
                  let d := code c2 in
                  if ((a =? 225) && (b =? 154) && (d =? 128)
                      || (a =? 226) && (b =? 128)
                         && ((128 <=? d) && (d <=? 138)
                             || (d =? 168) || (d =? 169) || (d =? 175))
                      || (a =? 226) && (b =? 129) && (d =? 159)
                      || (a =? 227) && (b =? 128) && (d =? 128))%N
                  then lstrip s3
                  else s
              | EmptyString => s
              end
        | EmptyString => s
        end
  end.

(** [rstrip] reads the same encodings from the right, on the reversed text,
    where each encoding appears with its bytes in the opposite order. *)
Fixpoint lstrip_reversed (s : string) : string :=
  match s with
  | EmptyString => EmptyString
  | String c s1 =>
      if is_ascii_space c then lstrip_reversed s1
      else
        match s1 with
        | String c1 s2 =>
            if ((code c1 =? 194) && ((code c =? 133) || (code c =? 160)))%N
            then lstrip_reversed s2
            else
              match s2 with
              | String c2 s3 =>
                  let a := code c2 in
                  let b := code c1 in
                  let d := code c in
                  if ((a =? 225) && (b =? 154) && (d =? 128)
                      || (a =? 226) && (b =? 128)
                         && ((128 <=? d) && (d <=? 138)
                             || (d =? 168) || (d =? 169) || (d =? 175))
                      || (a =? 226) && (b =? 129) && (d =? 159)
                      || (a =? 227) && (b =? 128) && (d =? 128))%N
                  then lstrip_reversed s3
                  else s
              | EmptyString => s
              end
        | EmptyString => s
        end
  end.

Definition rstrip (s : string) : string := rev (lstrip_reversed (rev s)).

(** [s.strip()] *)
Definition strip (s : string) : string := rstrip (lstrip s).

End PyStr.

(** ** Exceptions and results *)

(** The exception classes that occur. [LibraryError cls msg] stands for an
    exception of any other class [cls] raised inside a client library
    (a network error, an HTTP error, [AttributeError], ...); [msg] is what
    [str(e)] gives. *)
Inductive exn : Type :=
| JSONDecodeError (msg : string)
| Exception (msg : string)
| LibraryError (cls : string) (msg : string)
| HTTPException (status_code : Z) (detail : string).

Inductive result (A : Type) : Type :=
| Return (a : A)
| Raise (e : exn).

Arguments Return {A} a.
Arguments Raise {A} e.

(** [except json.JSONDecodeError] catches exactly this class. *)
Definition is_JSONDecodeError (e : exn) : bool :=
  match e with JSONDecodeError _ => true | _ => false end.

(** Decimal digits of a natural number, most significant first; [fuel] bounds
    the number of digits. *)
Fixpoint digits_onto (fuel : nat) (n : N) (acc : string) : string :=
  match fuel with
  | 0 => acc
  | S f =>
      let acc' := String (ascii_of_N (48 + n mod 10)) acc in
      if (n <? 10)%N then acc' else digits_onto f (n / 10)%N acc'
  end.

Definition str_of_N (n : N) : string :=
  digits_onto (S (N.to_nat (N.log2 n))) n EmptyString.

Definition str_of_Z (z : Z) : string :=
  match z with
  | Zneg p => "-" ++ str_of_N (Npos p)
  | _ => str_of_N (Z.to_N z)
  end.

(** [str(e)]. For [HTTPException] this is Starlette's rendering, the status
    code, a colon and the detail. *)
Definition str_of_exn (e : exn) : string :=
  match e with
  | JSONDecodeError msg => msg
  | Exception msg => msg
  | LibraryError _ msg => msg
  | HTTPException status_code detail => str_of_Z status_code ++ ": " ++ detail
  end.

(** ** The regular expression of [_extract_json] *)

Module Re.

(** The fragment of [re] syntax that the pattern uses: a literal character,
    [.*] under [re.DOTALL] (any characters, line feeds included, as many as
    possible), concatenation and ordered alternation. *)
Inductive regex : Type :=
| Chr (c : ascii)
| DotStar
| Cat (r1 r2 : regex)
| Alt (r1 r2 : regex).

(** Backtracking matcher at the head of [s]: [k] receives what is left after
    a match of [r] and may refuse it, which makes the matcher try its next
    choice. [DotStar] is greedy: it first tries to take one more character. *)
Fixpoint rmatch (A : Type) (r : regex) (k : string -> option A) (s : string)
  : option A :=
  match r with
  | Chr c =>
      match s with
      | String a s' => if Ascii.eqb a c then k s' else None
      | EmptyString => None
      end
  | DotStar =>
      (fix star (t : string) : option A :=
         match t with
         | String _ t' =>
             match star t' with
             | Some x => Some x
             | None => k t
             end
         | EmptyString => k t
         end) s
  | Cat r1 r2 => rmatch A r1 (rmatch A r2 k) s
  | Alt r1 r2 =>
      match rmatch A r1 k s with
      | Some x => Some x
      | None => rmatch A r2 k s
      end
  end.

Arguments rmatch {A} r k s.

(** The first [n] bytes of [s]. *)
Fixpoint take_bytes (n : nat) (s : string) : string :=
  match n, s with
  | S n', String c s' => String c (take_bytes n' s')
  | _, _ => EmptyString
  end.

(** [re.search(r, s)]: the match at the leftmost position where [r] matches;
    [m.group()] is the matched text. *)
Fixpoint search (r : regex) (s : string) : option string :=
  match rmatch r (fun rest => Some rest) s with
  | Some rest => Some (take_bytes (String.length s - String.length rest) s)
  | None =>
      match s with
      | String _ s' => search r s'
      | EmptyString => None
      end
  end.

(** [r'\[.*\]|\{.*\}'] *)
Definition json_pattern : regex :=
  Alt (Cat (Chr "[") (Cat DotStar (Chr "]")))
      (Cat (Chr "{") (Cat DotStar (Chr "}"))).

End Re.

(** ** JSON values and [json.loads] *)

Module Json.

Import PyStr.

(** What [json.loads] builds: [None], [bool], [int], [float], [str], [list]
    and [dict]. A float is kept as the decimal it was read from,
    [mantissa * 10 ^ exp10] with its sign, which stands for the nearest
    binary64 number; [NaN] and the infinities are the three constants the
    decoder accepts. A [dict] keeps its keys in insertion order, each once. *)
Inductive json : Type :=
| JNull
| JBool (b : bool)
| JInt (z : Z)
| JFloat (neg : bool) (mantissa : N) (exp10 : Z)
| JNaN
| JInfinity (neg : bool)
| JStr (s : string)
| JArr (items : list json)
| JObj (members : list (string * json)).

(** [d[k] = v] on an insertion-ordered dict. *)
Fixpoint dict_set (k : string) (v : json) (d : list (string * json))
  : list (string * json) :=
  match d with
  | [] => [(k, v)]
  | (k', v') :: d' =>
      if String.eqb k' k then (k', v) :: d' else (k', v') :: dict_set k v d'
  end.

(** [dict(pairs)]: a later pair with the same key replaces the value. *)
Definition dict_of_pairs (pairs : list (string * json)) : list (string * json) :=
  fold_left (fun d kv => dict_set (fst kv) (snd kv) d) pairs [].

(** [k in d] and [d[k]] *)
Fixpoint dict_get (k : string) (d : list (string * json)) : option json :=
  match d with
  | [] => None
  | (k', v) :: d' => if String.eqb k' k then Some v else dict_get k d'
  end.

(** The decimal [mantissa * 10 ^ exp10] rounds to the float zero: it is zero,
    or at most 2^-1075, half of the smallest positive binary64 number. *)
Definition float_is_zero (mantissa : N) (exp10 : Z) : bool :=
  (mantissa =? 0)%N
  || ((exp10 <? 0)%Z
      && (Z.of_N mantissa * 2 ^ 1075 <=? 10 ^ (- exp10))%Z).

(** Python truth value, as tested by [if not x]. *)
Definition truthy (v : json) : bool :=
  match v with
  | JNull => false
  | JBool b => b
  | JInt z => negb (z =? 0)%Z
  | JFloat _ m e => negb (float_is_zero m e)
  | JNaN => true
  | JInfinity _ => true
  | JStr s => negb (is_empty s)
  | JArr items => match items with [] => false | _ => true end
  | JObj members => match members with [] => false | _ => true end
  end.

(** *** Lexical level *)

Inductive token : Type :=
| TLBrace | TRBrace | TLBrack | TRBrack | TComma | TColon
| TValue (v : json).

(** The number syntax of the decoder, read one character at a time: an
    optional minus sign; an integer part, 0 or a non-zero digit and more
    digits; optionally a point and at least one digit; optionally e or E, an
    optional sign and at least one digit. *)
Inductive num_phase : Type :=
| NMinus      (* after the sign: a digit must follow *)
| NZero       (* integer part 0: no digit may follow *)
| NInt        (* inside the integer part *)
| NDot        (* after the point: a digit must follow *)
| NFrac       (* inside the fraction *)
| NExp        (* after e or E: a sign or a digit must follow *)
| NExpSign    (* after the sign of the exponent: a digit must follow *)
| NExpDigits. (* inside the exponent *)

Record num : Type := mkNum {
  num_neg : bool;
  num_phase_of : num_phase;
  num_mant : N;          (* digits of the integer part and of the fraction *)
  num_fdigits : Z;       (* how many of them belong to the fraction *)
  num_float : bool;      (* a fraction or an exponent is present *)
  num_eneg : bool;
  num_eabs : N
}.

Definition digit_of (c : ascii) : option N :=
  let n := code c in
  if ((48 <=? n) && (n <=? 57))%N then Some (n - 48)%N else None.

Definition num_start (c : ascii) : option num :=
  if Ascii.eqb c "-" then Some (mkNum true NMinus 0 0 false false 0)
  else
    match digit_of c with
    | Some d =>
        Some (mkNum false (if (d =? 0)%N then NZero else NInt) d 0 false false 0)
    | None => None
    end.

(** One more character of the number, or [None] when [c] cannot extend it. *)
Definition num_step (n : num) (c : ascii) : option num :=
  let '(mkNum neg ph m fd fl eneg eabs) := n in
  let is_e := Ascii.eqb c "e" || Ascii.eqb c "E" in
  match ph, digit_of c with
  | NMinus, Some d =>
      Some (mkNum neg (if (d =? 0)%N then NZero else NInt) d fd fl eneg eabs)
  | NInt, Some d => Some (mkNum neg NInt (m * 10 + d) fd fl eneg eabs)
  | (NDot | NFrac), Some d =>
      Some (mkNum neg NFrac (m * 10 + d) (fd + 1) fl eneg eabs)
  | (NExp | NExpSign | NExpDigits), Some d =>
      Some (mkNum neg NExpDigits m fd fl eneg (eabs * 10 + d))
  | (NZero | NInt), None =>
      if Ascii.eqb c "." then Some (mkNum neg NDot m fd true eneg eabs)
      else if is_e then Some (mkNum neg NExp m fd true eneg eabs)
      else None
  | NFrac, None =>
      if is_e then Some (mkNum neg NExp m fd true eneg eabs) else None
  | NExp, None =>
      if Ascii.eqb c "+" then Some (mkNum neg NExpSign m fd fl false eabs)
      else if Ascii.eqb c "-" then Some (mkNum neg NExpSign m fd fl true eabs)
      else None
  | _, _ => None
  end.

(** The value of a complete number: [int(...)] without fraction and exponent,
    [float(...)] otherwise. *)
Definition num_final (n : num) : option json :=
  let '(mkNum neg ph m fd fl eneg eabs) := n in
  match ph with
  | NZero | NInt | NFrac | NExpDigits =>
      Some (if fl
            then JFloat neg m
                   ((if eneg then - Z.of_N eabs else Z.of_N eabs) - fd)%Z
            else JInt (if neg then - Z.of_N m else Z.of_N m)%Z)
  | _ => None
  end.

(** White space and punctuation between values: [Some None] for one of the
    four white space characters, [Some (Some t)] for a punctuation token. *)
Definition punct (c : ascii) : option (option token) :=
  let n := code c in
  if ((n =? 32) || (n =? 9) || (n =? 10) || (n =? 13))%N then Some None
  else if Ascii.eqb c "{" then Some (Some TLBrace)
  else if Ascii.eqb c "}" then Some (Some TRBrace)
  else if Ascii.eqb c "[" then Some (Some TLBrack)
  else if Ascii.eqb c "]" then Some (Some TRBrack)
  else if Ascii.eqb c "," then Some (Some TComma)
  else if Ascii.eqb c ":" then Some (Some TColon)
  else None.

Definition hex_of (c : ascii) : option N :=
  let n := code c in
  if ((48 <=? n) && (n <=? 57))%N then Some (n - 48)%N
  else if ((97 <=? n) && (n <=? 102))%N then Some (n - 87)%N
  else if ((65 <=? n) && (n <=? 70))%N then Some (n - 55)%N
  else None.

(** The four hexadecimal digits at the head of [s]. *)
Definition hex4 (s : string) : option N :=
  match s with
  | String a (String b (String c (String d _))) =>
      match hex_of a, hex_of b, hex_of c, hex_of d with
      | Some x, Some y, Some z, Some w =>
          Some (((x * 16 + y) * 16 + z) * 16 + w)%N
      | _, _, _, _ => None
      end
  | _ => None
  end.

Definition byte (n : N) : string := String (chr n) EmptyString.

(** UTF-8 bytes of a code point; a lone surrogate is written in the same
    three-byte form. *)
Definition utf8 (cp : N) : string :=
  if (cp <? 128)%N then byte cp
  else if (cp <? 2048)%N then byte (192 + cp / 64) ++ byte (128 + cp mod 64)
  else if (cp <? 65536)%N then
    byte (224 + cp / 4096) ++ byte (128 + (cp / 64) mod 64)
    ++ byte (128 + cp mod 64)
  else
    byte (240 + cp / 262144) ++ byte (128 + (cp / 4096) mod 64)
    ++ byte (128 + (cp / 64) mod 64) ++ byte (128 + cp mod 64).

(** The character a one-letter escape stands for. *)
Definition simple_escape (c : ascii) : option N :=
  let n := code c in
  if (n =? 34)%N then Some 34%N            (* quote *)
  else if (n =? 92)%N then Some 92%N       (* backslash *)
  else if (n =? 47)%N then Some 47%N       (* slash *)
  else if (n =? 98)%N then Some 8%N        (* b *)
  else if (n =? 102)%N then Some 12%N      (* f *)
  else if (n =? 110)%N then Some 10%N      (* n *)
  else if (n =? 114)%N then Some 13%N      (* r *)
  else if (n =? 116)%N then Some 9%N       (* t *)
  else None.

(** What follows a backslash inside a string: the code point of the escape and
    the number of bytes it takes after the backslash. A high surrogate
    followed by an escaped low surrogate makes one code point. *)
Definition escape (s : string) : option (N * nat) :=
  match s with
  | EmptyString => None
  | String e s' =>
      if Ascii.eqb e "u" then
        match hex4 s' with
        | None => None
        | Some hi =>
            let after := substring 4 2 s' in
            let lo := hex4 (substring 6 4 s') in
            match lo with
            | Some l =>
                if ((55296 <=? hi) && (hi <=? 56319)
                    && String.eqb after "\u"
                    && (56320 <=? l) && (l <=? 57343))%N
                then Some ((65536 + ((hi - 55296) * 1024 + (l - 56320)))%N, 11)
                else Some (hi, 5)
            | None => Some (hi, 5)
            end
        end
      else
        match simple_escape e with
        | Some cp => Some (cp, 1)
        | None => None
        end
  end.

(** The lexer reads one byte per step. [MSkip k m] drops [k + 1] bytes that an
    earlier step has already recognised, then goes on in mode [m]; [MString]
    holds the bytes of the string so far, last first. *)
Inductive mode : Type :=
| MTop
| MSkip (k : nat) (m : mode)
| MString (acc : string)
| MNumber (n : num).

Definition cons_tok (t : token) (r : option (list token))
  : option (list token) :=
  match r with
  | Some ts => Some (t :: ts)
  | None => None
  end.

Fixpoint lex (m : mode) (s : string) : option (list token) :=
  match s with
  | EmptyString =>
      match m with
      | MTop => Some []
      | MNumber n =>
          match num_final n with
          | Some v => Some [TValue v]
          | None => None
          end
      | MSkip _ _ | MString _ => None
      end
  | String c s' =>
      match m with
      | MSkip 0 m' => lex m' s'
      | MSkip (S k) m' => lex (MSkip k m') s'
      | MTop =>
          match punct c with
          | Some None => lex MTop s'
          | Some (Some t) => cons_tok t (lex MTop s')
          | None =>
              if (code c =? 34)%N then lex (MString EmptyString) s'
              else if startswith "null" s
              then cons_tok (TValue JNull) (lex (MSkip 2 MTop) s')
              else if startswith "true" s
              then cons_tok (TValue (JBool true)) (lex (MSkip 2 MTop) s')
              else if startswith "false" s
              then cons_tok (TValue (JBool false)) (lex (MSkip 3 MTop) s')
              else if startswith "NaN" s
              then cons_tok (TValue JNaN) (lex (MSkip 1 MTop) s')
              else if startswith "Infinity" s
              then cons_tok (TValue (JInfinity false)) (lex (MSkip 6 MTop) s')
              else if startswith "-Infinity" s
              then cons_tok (TValue (JInfinity true)) (lex (MSkip 7 MTop) s')
              else
                match num_start c with
                | Some n => lex (MNumber n) s'
                | None => None
                end
          end
      | MNumber n =>
          match num_step n c with
          | Some n' => lex (MNumber n') s'
          | None =>
              match num_final n, punct c with
              | Some v, Some None => cons_tok (TValue v) (lex MTop s')
              | Some v, Some (Some t) =>
                  cons_tok (TValue v) (cons_tok t (lex MTop s'))
              | _, _ => None
              end
          end
      | MString acc =>
          if (code c =? 34)%N
          then cons_tok (TValue (JStr (rev acc))) (lex MTop s')
          else if (code c =? 92)%N then
            match escape s' with
            | Some (cp, S k) => lex (MSkip k (MString (rev_onto (utf8 cp) acc))) s'
            | _ => None
            end
          else if (code c <? 32)%N then None
          else lex (MString (String c acc)) s'
      end
  end.

(** *** Grammar level *)

(** An array or an object that is still open. *)
Inductive frame : Type :=
| FArr (items : list json)                        (* items so far, last first *)
| FObj (pairs : list (string * json)) (key : string). (* waiting for key's value *)

Inductive pstate : Type :=
| PValue (stk : list frame)          (* a value must start *)
| PArrFirst (stk : list frame)       (* after [ : a value or ] *)
| PArrNext (items : list json) (stk : list frame)   (* after an item: , or ] *)
| PObjFirst (stk : list frame)       (* after { : a key or } *)
| PObjKey (pairs : list (string * json)) (stk : list frame)   (* after , : a key *)
| PObjColon (pairs : list (string * json)) (key : string) (stk : list frame)
| PObjNext (pairs : list (string * json)) (stk : list frame)  (* , or } *)
| PDone (v : json).                  (* the document is complete *)

(** A value [v] is complete: it goes into the innermost open container. *)
Definition reduce (v : json) (stk : list frame) : pstate :=
  match stk with
  | [] => PDone v
  | FArr items :: stk' => PArrNext (v :: items) stk'
  | FObj pairs key :: stk' => PObjNext ((key, v) :: pairs) stk'
  end.

Definition begin_value (t : token) (stk : list frame) : option pstate :=
  match t with
  | TValue v => Some (reduce v stk)
  | TLBrack => Some (PArrFirst stk)
  | TLBrace => Some (PObjFirst stk)
  | _ => None
  end.

Definition pstep (st : pstate) (t : token) : option pstate :=
  match st with
  | PValue stk => begin_value t stk
  | PArrFirst stk =>
      match t with
      | TRBrack => Some (reduce (JArr []) stk)
      | _ => begin_value t (FArr [] :: stk)
      end
  | PArrNext items stk =>
      match t with
      | TComma => Some (PValue (FArr items :: stk))
      | TRBrack => Some (reduce (JArr (List.rev items)) stk)
      | _ => None
      end
  | PObjFirst stk =>
      match t with
      | TRBrace => Some (reduce (JObj []) stk)
      | TValue (JStr k) => Some (PObjColon [] k stk)
      | _ => None
      end
  | PObjKey pairs stk =>
      match t with
      | TValue (JStr k) => Some (PObjColon pairs k stk)
      | _ => None
      end
  | PObjColon pairs k stk =>
      match t with
      | TColon => Some (PValue (FObj pairs k :: stk))
      | _ => None
      end
  | PObjNext pairs stk =>
      match t with
      | TComma => Some (PObjKey pairs stk)
      | TRBrace => Some (reduce (JObj (dict_of_pairs (List.rev pairs))) stk)
      | _ => None
      end
  | PDone _ => None
  end.

Fixpoint prun (st : pstate) (ts : list token) : option pstate :=
  match ts with
  | [] => Some st
  | t :: ts' =>
      match pstep st t with
      | Some st' => prun st' ts'
      | None => None
      end
  end.

(** [json.loads(s)] for a [str]: the value of the document, or
    [JSONDecodeError] when [s] is not one JSON document. The limits of the
    interpreter (recursion depth, length of integer literals) are not part
    of the model. *)
Definition loads (s : string) : result json :=
  match lex MTop s with
  | Some ts =>
      match prun (PValue []) ts with
      | Some (PDone v) => Return v
      | _ => Raise (JSONDecodeError "Expecting value")
      end
  | None => Raise (JSONDecodeError "Expecting value")
  end.

End Json.

(** ** The world outside: providers, network, files *)

Module World.

Import Json.

(** A decimal constant of the source, [units.tenths] (0.7 is [Dec 0 7]). *)
Record dec : Type := Dec { dec_units : Z; dec_tenths : Z }.

(** One entry of the [messages] list of a chat completion. [content] is a
    Python value: [chat] forwards whatever the history holds. *)
Record message : Type := Message { role : string; content : json }.

(** A PIL image, identified by the bytes that [save(format=PNG)] writes. *)
Inductive image : Type := Image (png : string).

Definition png_bytes (img : image) : string :=
  match img with Image png => png end.

(** The calls that leave the process, in the order they are made. *)
Inductive event : Type :=
| GeminiGenerateContent (full_prompt : string)
| GroqChatCreate (model : string) (messages : list message)
                 (temperature : dec) (max_tokens : option Z)
| HfTextToImage (prompt : string) (model : string) (guidance_scale : dec)
                (num_inference_steps height width : Z)
| RequestsGet (url : string) (timeout : Z)
| Mkdir (path : string)
| ImageSave (path : string) (img : image).

(** How the outside answers. Each field gives the outcome of one kind of
    call: the text of the reply or the exception the client library raises.
    [uuid4 k] is the [k]-th random 128-bit identifier drawn in a request. *)
Record env : Type := Env {
  genai_generate_content : string -> result string;
  groq_chat_create :
    string -> list message -> dec -> option Z -> result string;
  hf_text_to_image : string -> string -> Z -> result image;
  requests_get : string -> result (Z * string);
  Image_open : string -> result image;
  path_mkdir : string -> result unit;
  image_save : string -> image -> result unit;
  uuid4 : nat -> N
}.

Record state : Type := State { log : list event; uuids_drawn : nat }.

Definition initial : state := State [] 0.

(** A computation that may raise, reads the environment and extends the log. *)
Definition M (A : Type) : Type := env -> state -> result A * state.

Definition ret {A : Type} (a : A) : M A := fun _ st => (Return a, st).

Definition raise {A : Type} (e : exn) : M A := fun _ st => (Raise e, st).

Definition bind {A B : Type} (m : M A) (k : A -> M B) : M B :=
  fun w st =>
    match m w st with
    | (Return a, st') => k a w st'
    | (Raise e, st') => (Raise e, st')
    end.

(** [try: m  except Exception as e: h e] *)
Definition try_except {A : Type} (m : M A) (h : exn -> M A) : M A :=
  fun w st =>
    match m w st with
    | (Return a, st') => (Return a, st')
    | (Raise e, st') => h e w st'
    end.

(** An external call: it is logged, then answered by the environment. *)
Definition call {A : Type} (ev : event) (answer : env -> result A) : M A :=
  fun w st => (answer w, State (log st ++ [ev]) (uuids_drawn st)).

(** A library call that stays inside the process: answered by the
    environment, not logged. *)
Definition consult {A : Type} (answer : env -> result A) : M A :=
  fun w st => (answer w, st).

(** [uuid.uuid4().int] *)
Definition draw_uuid4 : M N :=
  fun w st => (Return (uuid4 w (uuids_drawn st)),
               State (log st) (S (uuids_drawn st))).

Definition run {A : Type} (m : M A) (w : env) : result A * state :=
  m w initial.

Definition outcome {A : Type} (m : M A) (w : env) : result A :=
  fst (run m w).

Definition trace {A : Type} (m : M A) (w : env) : list event :=
  log (snd (run m w)).

End World.

Declare Scope py_scope.
Delimit Scope py_scope with py.

Notation "x <- m ;; k" := (World.bind m (fun x => k))
  (at level 61, m at next level, right associativity) : py_scope.
Notation "m ;;; k" := (World.bind m (fun _ => k))
  (at level 61, right associativity) : py_scope.

(** ** [config.py] *)

(** The settings read from the process environment. [os.getenv] gives [None]
    for an absent variable; [GROQ_MODEL] has a default and is always a
    string. *)
Record Settings : Type := mkSettings {
  GROQ_API_KEY : option string;
  HF_API_KEY : option string;
  GOOGLE_API_KEY : option string;
  GROQ_MODEL : string
}.

(** ** [schemas.py] *)

Record BrandRequest : Type := mkBrandRequest {
  brand_description : string;
  brand_keywords : option (list string)
}.

Record TaglineRequest : Type := mkTaglineRequest {
  tagline_brand_name : string;
  tagline_description : string;
  tagline_tone : option string
}.

Record ContentRequest : Type := mkContentRequest {
  content_topic : string;
  content_tone : string;
  content_type : string
}.

Record ProductDescriptionRequest : Type := mkProductDescriptionRequest {
  product_name : string;
  product_features : string;
  product_target_audience : string;
  product_tone : string
}.

Record SentimentRequest : Type := mkSentimentRequest {
  sentiment_text : string;
  sentiment_brand_name : option string
}.

Record TaglineAnalysisRequest : Type := mkTaglineAnalysisRequest {
  analysis_tagline : string;
  analysis_brand_name : string;
  analysis_brand_description : option string
}.

Record ColorsRequest : Type := mkColorsRequest {
  colors_description : string
}.

Record ChatRequest : Type := mkChatRequest {
  chat_message : string;
  chat_history : option (list (list (string * Json.json)))
}.

Record LogoRequest : Type := mkLogoRequest {
  logo_description : string;
  logo_style : option string
}.

(** ** Library functions used by the service *)

Module Lib.

Import PyStr.

Definition hex_digit (upper : bool) (n : N) : ascii :=
  if (n <? 10)%N then chr (48 + n)
  else chr ((if upper then 55 else 87) + n).

(** Characters that [urllib.parse.quote] leaves alone: letters, digits,
    [_.-~] and the default safe character [/]. *)
Definition quote_safe (c : ascii) : bool :=
  let n := code c in
  ((48 <=? n) && (n <=? 57) || (65 <=? n) && (n <=? 90)
   || (97 <=? n) && (n <=? 122)
   || (n =? 95) || (n =? 46) || (n =? 45) || (n =? 126) || (n =? 47))%N.

(** [urllib.parse.quote(s)]: every other byte of the UTF-8 encoding becomes a
    percent sign and two upper-case hexadecimal digits. *)
Fixpoint quote (s : string) : string :=
  match s with
  | EmptyString => EmptyString
  | String c s' =>
      if quote_safe c then String c (quote s')
      else
        String "%"
          (String (hex_digit true (code c / 16))
             (String (hex_digit true (code c mod 16)) (quote s')))
  end.

(** [n] lower-case hexadecimal digits of [v], most significant first. *)
Fixpoint hex_onto (n : nat) (v : N) (acc : string) : string :=
  match n with
  | 0 => acc
  | S n' => hex_onto n' (v / 16)%N (String (hex_digit false (v mod 16)) acc)
  end.

(** [uuid.UUID.hex]: 32 hexadecimal digits. *)
Definition uuid_hex (v : N) : string := hex_onto 32 v EmptyString.

Definition b64_char (n : N) : ascii :=
  if (n <? 26)%N then chr (65 + n)
  else if (n <? 52)%N then chr (71 + n)
  else if (n <? 62)%N then chr (n - 4)
  else if (n =? 62)%N then "+"%char
  else "/"%char.

(** [base64.b64encode(data).decode()] *)
Fixpoint b64encode (data : string) : string :=
  match data with
  | EmptyString => EmptyString
  | String a EmptyString =>
      let x := code a in
      String (b64_char (x / 4))
        (String (b64_char ((x mod 4) * 16)) "==")
  | String a (String b EmptyString) =>
      let x := code a in
      let y := code b in
      String (b64_char (x / 4))
        (String (b64_char ((x mod 4) * 16 + y / 16))
           (String (b64_char ((y mod 16) * 4)) "="))
  | String a (String b (String c rest)) =>
      let x := code a in
      let y := code b in
      let z := code c in
      String (b64_char (x / 4))
        (String (b64_char ((x mod 4) * 16 + y / 16))
           (String (b64_char ((y mod 16) * 4 + z / 64))
              (String (b64_char (z mod 64)) (b64encode rest))))
  end.

End Lib.

(** ** [ai_service.py]: the service *)

Module AIService.

Import PyStr Json World.
Local Open Scope string_scope.
Local Open Scope py_scope.

(** The client handles; each exists only when its key was configured. *)
Inductive Groq : Type := GroqClient (api_key : string).
Inductive GenerativeModel : Type := GeminiModel (model_name : string).
Inductive InferenceClient : Type := HfClient (token : string).

Record AIService : Type := mkAIService {
  groq_client : option Groq;
  genai_model : option GenerativeModel;
  hf_client : option InferenceClient
}.

(** Truth value of an optional string: [None] and the empty string are
    false. *)
Definition str_truthy (o : option string) : bool :=
  match o with
  | Some s => negb (is_empty s)
  | None => false
  end.

(** An optional string inside an f-string. *)
Definition fmt (o : option string) : string :=
  match o with
  | Some s => s
  | None => "None"
  end.

(** [AIService.__init__]. [genai_setup] is the outcome of importing and
    configuring the Gemini library. When [HF_API_KEY] is not set the
    constructor reads [settings.HUGGINGFACE_TOKEN], an attribute that
    [Settings] does not have. *)
Definition __init__ (settings : Settings) (genai_setup : result unit)
  : result AIService :=
  let groq :=
    match GROQ_API_KEY settings with
    | Some k => if is_empty k then None else Some (GroqClient k)
    | None => None
    end in
  let genai :=
    if str_truthy (GOOGLE_API_KEY settings) then
      match genai_setup with
      | Return _ => Some (GeminiModel "gemini-pro")
      | Raise _ => None
      end
    else None in
  match HF_API_KEY settings with
  | Some k =>
      if is_empty k
      then Raise (LibraryError "AttributeError"
                    "'Settings' object has no attribute 'HUGGINGFACE_TOKEN'")
      else Return (mkAIService groq genai (Some (HfClient k)))
  | None =>
      Raise (LibraryError "AttributeError"
               "'Settings' object has no attribute 'HUGGINGFACE_TOKEN'")
  end.

(** [settings.GROQ_MODEL or "llama-3.3-70b-versatile"] *)
Definition groq_model (settings : Settings) : string :=
  if is_empty (GROQ_MODEL settings) then "llama-3.3-70b-versatile"
  else GROQ_MODEL settings.

Definition groq_create (settings : Settings) (messages : list message)
  (temperature : dec) (max_tokens : option Z) : M string :=
  call (GroqChatCreate (groq_model settings) messages temperature max_tokens)
       (fun w => groq_chat_create w (groq_model settings) messages
                   temperature max_tokens).

(** The one prompt Gemini receives: it has no separate system channel. *)
Definition full_prompt_of (system_instruction : option string)
  (prompt : string) : string :=
  if str_truthy system_instruction
  then fmt system_instruction ++ nl ++ nl ++ prompt
  else prompt.

(** The messages Groq receives: the system instruction first, when there is
    one, then the prompt as the user. *)
Definition messages_of (system_instruction : option string)
  (prompt : string) : list message :=
  ((if str_truthy system_instruction
    then [Message "system" (JStr (fmt system_instruction))]
    else [])
   ++ [Message "user" (JStr prompt)])%list.

(** [AIService._generate_text]: Gemini when it is there, then Groq. The first
    block yields [Some text] when Gemini returned, [None] when it is absent
    or raised. *)
Definition _generate_text (settings : Settings) (self : AIService)
  (prompt : string) (system_instruction : option string) : M string :=
  first <- match genai_model self with
           | Some _ =>
               try_except
                 (let full_prompt :=
                    full_prompt_of system_instruction prompt in
                  text <- call (GeminiGenerateContent full_prompt)
                            (fun w => genai_generate_content w full_prompt) ;;
                  ret (Some text))
                 (fun e => ret None)
           | None => ret None
           end ;;
  match first with
  | Some text => ret text
  | None =>
      match groq_client self with
      | Some _ =>
          try_except
            (let messages := messages_of system_instruction prompt in
             groq_create settings messages (Dec 0 7) None)
            (fun e_groq => raise e_groq)
      | None =>
          raise (Exception "No working LLM client available (Gemini or Groq)")
      end
  end.

(** [_extract_json] over a decoder [json_loads]: the first handler catches
    [JSONDecodeError] only, the inner one catches everything. Python's [None]
    is [JNull]. *)
Definition extract_json_using (json_loads : string -> result json)
  (text : string) : result json :=
  match json_loads text with
  | Return v => Return v
  | Raise e =>
      if is_JSONDecodeError e then
        match Re.search Re.json_pattern text with
        | Some m =>
            match json_loads m with
            | Return v => Return v
            | Raise _ => Return JNull
            end
        | None => Return JNull
        end
      else Raise e
  end.

(** [AIService._extract_json] *)
Definition _extract_json (text : string) : result json :=
  extract_json_using Json.loads text.

Definition lift {A : Type} (r : result A) : M A :=
  match r with
  | Return a => ret a
  | Raise e => raise e
  end.

(** The handler that closes every operation:
    [except Exception as e: raise HTTPException(status_code=500, detail=...)]. *)
Definition http_500 {A : Type} (prefix : string) (body : M A) : M A :=
  try_except body
    (fun e => raise (HTTPException 500 (prefix ++ str_of_exn e))).

Definition no_groq {A : Type} : M A :=
  raise (Exception "Groq Client not initialized").

(** The names kept by [generate_brand]: the [name] of a dict that has one,
    and every string. *)
Definition clean_names (names : list json) : list json :=
  flat_map
    (fun n =>
       match n with
       | JObj d =>
           match dict_get "name" d with
           | Some v => [v]
           | None => []
           end
       | JStr _ => [n]
       | _ => []
       end)
    names.

Definition brand_prompt (req : BrandRequest) : string :=
  let keywords :=
    match brand_keywords req with
    | Some (k :: ks) => join ", " (k :: ks)
    | _ => ""
    end in
  "Generate 5 unique, memorable brand names for a business described as: '"
  ++ brand_description req ++ "'.
Keywords: " ++ keywords ++ "

Requirements:
- Creative and memorable
- Easy to pronounce
- Modern and professional

Return ONLY a valid JSON array of strings (e.g. [" ++ dq ++ "Name1" ++ dq
  ++ ", " ++ dq ++ "Name2" ++ dq ++ "]). No other text.".

Definition brand_system : string :=
  "You are a creative brand naming expert. You always respond with ONLY valid JSON.".

(** What [generate_brand] does with the text of the provider. *)
Definition brand_finish (result : string) : M json :=
  names <- lift (_extract_json result) ;;
  let names :=
    if negb (truthy names) && contains_char "," result
    then JArr (map (fun n => JStr (strip n)) (split "," result))
    else names in
  match names with
  | JArr items => ret (JObj [("brand_names", JArr (clean_names items))])
  | _ => ret (JObj [("brand_names", JArr [])])
  end.

(** [AIService.generate_brand] *)
Definition generate_brand (settings : Settings) (self : AIService)
  (req : BrandRequest) : M json :=
  http_500 ""
    (result <- _generate_text settings self (brand_prompt req)
                 (Some brand_system) ;;
     brand_finish result).

Definition tagline_prompt (req : TaglineRequest) : string :=
  "Generate 5 catchy and impactful taglines for the brand '"
  ++ tagline_brand_name req ++ "', which is described as: '"
  ++ tagline_description req ++ "'.
Tone: " ++ fmt (tagline_tone req) ++ "

Provide the output in valid JSON format as a list of objects, where each object has:
- " ++ dq ++ "tagline" ++ dq ++ ": The tagline text
- " ++ dq ++ "logic" ++ dq ++ ": A brief explanation of why this tagline works (marketing perspective)

Return ONLY valid JSON. No other text.".

Definition tagline_system : string :=
  "You are a creative marketing copywriter. You always respond with ONLY valid JSON.".

Definition tagline_finish (req : TaglineRequest) (result : string) : M json :=
  taglines <- lift (_extract_json result) ;;
  if negb (truthy taglines)
  then ret (JObj [("taglines",
                   JArr [JObj [("tagline",
                                JStr (tagline_brand_name req
                                      ++ ": The best choice."));
                               ("logic", JStr "Generic fallback")]])])
  else ret (JObj [("taglines", taglines)]).

(** [AIService.generate_tagline] *)
Definition generate_tagline (settings : Settings) (self : AIService)
  (req : TaglineRequest) : M json :=
  http_500 ""
    (result <- _generate_text settings self (tagline_prompt req)
                 (Some tagline_system) ;;
     tagline_finish req result).

Definition content_prompt (req : ContentRequest) : string :=
  "Write a " ++ content_type req ++ " about '" ++ content_topic req
  ++ "' in a " ++ content_tone req ++ " tone. Keep it engaging and concise.".

(** [AIService.generate_content]: Groq is called directly. *)
Definition generate_content (settings : Settings) (self : AIService)
  (req : ContentRequest) : M json :=
  http_500 ""
    (match groq_client self with
     | None => no_groq
     | Some _ =>
         text <- groq_create settings
                   [Message "user" (JStr (content_prompt req))]
                   (Dec 0 7) None ;;
         ret (JObj [("content", JStr text)])
     end).

Definition product_prompt (req : ProductDescriptionRequest) : string :=
  "Create compelling product descriptions for '" ++ product_name req
  ++ "'.
Features: " ++ product_features req ++ "
Target Audience: " ++ product_target_audience req ++ "
Tone: " ++ product_tone req ++ "

Provide the output in valid JSON format with the following keys:
- " ++ dq ++ "short_description" ++ dq ++ ": A 1-2 sentence summary suitable for a catalog card.
- " ++ dq ++ "long_description" ++ dq ++ ": A detailed paragraph (3-4 sentences) describing the product benefits.
- " ++ dq ++ "marketing_blurb" ++ dq ++ ": A catchy phrase or short paragraph for social media/ads.
- " ++ dq ++ "bullets" ++ dq ++ ": A list of 5 customer-focused bullet points highlighting benefits.

Return ONLY valid JSON. No other text.".

Definition product_system : string :=
  "You are an expert e-commerce copywriter. You always respond with ONLY valid JSON.".

Definition product_finish (result : string) : M json :=
  content <- lift (_extract_json result) ;;
  if negb (truthy content)
  then ret (JObj [("short_description",
                   JStr "Failed to generate description.");
                  ("long_description", JStr "Please try again.");
                  ("marketing_blurb", JStr "");
                  ("bullets", JArr [])])
  else ret content.

(** [AIService.generate_product_description] *)
Definition generate_product_description (settings : Settings)
  (self : AIService) (req : ProductDescriptionRequest) : M json :=
  http_500 ""
    (result <- _generate_text settings self (product_prompt req)
                 (Some product_system) ;;
     product_finish result).

Definition sentiment_prompt (req : SentimentRequest) : string :=
  let brand_context :=
    if str_truthy (sentiment_brand_name req)
    then " for the brand '" ++ fmt (sentiment_brand_name req) ++ "'"
    else "" in
  "Analyze the following customer comments/reviews" ++ brand_context
  ++ ":

" ++ dq ++ sentiment_text req ++ dq ++ "

Provide a detailed analysis in valid JSON format with the following keys:
- " ++ dq ++ "sentiment" ++ dq ++ ": " ++ dq ++ "Positive" ++ dq ++ ", "
  ++ dq ++ "Neutral" ++ dq ++ ", or " ++ dq ++ "Negative" ++ dq ++ "
- " ++ dq ++ "score" ++ dq ++ ": A score from 0 to 100 (where 100 is perfect)
- " ++ dq ++ "summary" ++ dq ++ ": A brief summary of the feedback (max 2 sentences)
- " ++ dq ++ "key_issues" ++ dq ++ ": A list of specific problems or complaints mentioned
- " ++ dq ++ "suggestions" ++ dq ++ ": A list of actionable recommendations for the brand to improve

Return ONLY valid JSON. Do not include markdown formatting or explanations.".

Definition sentiment_system : string :=
  "You are an expert brand analyst. You always respond with ONLY valid JSON.".

Definition sentiment_finish (result : string) : M json :=
  analysis <- lift (_extract_json result) ;;
  if negb (truthy analysis)
  then ret (JObj [("sentiment", JStr "Neutral");
                  ("score", JInt 50);
                  ("summary", JStr "Could not parse detailed analysis.");
                  ("key_issues", JArr [JStr "Analysis format error"]);
                  ("suggestions",
                   JArr [JStr "Please try again with different text."])])
  else ret analysis.

(** [AIService.analyze_sentiment] *)
Definition analyze_sentiment (settings : Settings) (self : AIService)
  (req : SentimentRequest) : M json :=
  http_500 ""
    (result <- _generate_text settings self (sentiment_prompt req)
                 (Some sentiment_system) ;;
     sentiment_finish result).

(** [s] between double quotes. *)
Definition qt (s : string) : string := dq ++ s ++ dq.

Definition analysis_prompt (req : TaglineAnalysisRequest) : string :=
  let brand_desc_ctx :=
    if str_truthy (analysis_brand_description req)
    then " described as '" ++ fmt (analysis_brand_description req) ++ "'"
    else "" in
  "Analyze this tagline for the brand '" ++ analysis_brand_name req
  ++ "'" ++ brand_desc_ctx ++ ":
Tagline: " ++ qt (analysis_tagline req) ++ "

Provide a detailed marketing assessment in valid JSON format with the following keys:
- " ++ qt "sentiment" ++ ": " ++ qt "Positive" ++ ", " ++ qt "Bold" ++ ", "
  ++ qt "Playful" ++ ", " ++ qt "Neutral" ++ ", etc.
- " ++ qt "impact_score" ++ ": A score from 0 to 100 for memorability and effectiveness.
- " ++ qt "reach_potential" ++ ": " ++ qt "High" ++ ", " ++ qt "Medium"
  ++ ", or " ++ qt "Low" ++ " (likelihood to be shared or remembered).
- " ++ qt "analysis" ++ ": A 2-3 sentence explanation of why the tagline works or doesn't work.
- " ++ qt "suggestions" ++ ": A list of 3 concrete ways to improve it for better reach and impact.
- " ++ qt "better_alternatives" ++ ": A list of 3 improved versions of the tagline.

Return ONLY valid JSON. No other text.".

Definition analysis_system : string :=
  "You are a world-class brand strategist. You always respond with ONLY valid JSON.".

Definition analysis_finish (result : string) : M json :=
  analysis <- lift (_extract_json result) ;;
  if negb (truthy analysis)
  then ret (JObj [("sentiment", JStr "Unknown");
                  ("impact_score", JInt 0);
                  ("reach_potential", JStr "Low");
                  ("analysis", JStr "Could not analyze tagline.");
                  ("suggestions", JArr []);
                  ("better_alternatives", JArr [])])
  else ret analysis.

(** [AIService.analyze_tagline] *)
Definition analyze_tagline (settings : Settings) (self : AIService)
  (req : TaglineAnalysisRequest) : M json :=
  http_500 ""
    (result <- _generate_text settings self (analysis_prompt req)
                 (Some analysis_system) ;;
     analysis_finish result).

(** The palette of [get_colors]: the pieces between commas, stripped, that
    start with a hash sign. *)
Definition parse_colors (colors_text : string) : list string :=
  map strip
    (filter (fun c => startswith "#" (strip c))
       (split "," (replace nl "" colors_text))).

Definition colors_prompt (req : ColorsRequest) : string :=
  "Suggest a color palette (5 colors) for a brand described as: '"
  ++ colors_description req
  ++ "'. Return ONLY the hex codes in a comma-separated list. do not include any other text.".

(** [AIService.get_colors]: Groq is called directly. *)
Definition get_colors (settings : Settings) (self : AIService)
  (req : ColorsRequest) : M json :=
  http_500 ""
    (match groq_client self with
     | None => no_groq
     | Some _ =>
         colors_text <- groq_create settings
                          [Message "user" (JStr (colors_prompt req))]
                          (Dec 0 5) None ;;
         ret (JObj [("colors", JArr (map JStr (parse_colors colors_text)))])
     end).

(** One entry of the history as a chat message: the role is [user] or
    [assistant], the content is [msg.get(content)]. *)
Definition history_message (msg : list (string * json)) : message :=
  let role :=
    match dict_get "role" msg with
    | Some (JStr r) => if String.eqb r "user" then "user" else "assistant"
    | _ => "assistant"
    end in
  Message role
    (match dict_get "content" msg with
     | Some v => v
     | None => JNull
     end).

Definition chat_messages (req : ChatRequest)
  (history : list (list (string * json))) : list message :=
  (map history_message history
   ++ [Message "user" (JStr (chat_message req))])%list.

(** [AIService.chat]: Groq is called directly. *)
Definition chat (settings : Settings) (self : AIService) (req : ChatRequest)
  : M json :=
  http_500 ""
    (match groq_client self with
     | None => no_groq
     | Some _ =>
         match chat_history req with
         | None =>
             raise (LibraryError "TypeError"
                      "'NoneType' object is not iterable")
         | Some history =>
             reply <- groq_create settings (chat_messages req history)
                        (Dec 0 7) (Some 1000%Z) ;;
             ret (JObj [("reply", JStr reply)])
         end
     end).

(** The image models of [generate_logo], in order, each with its number of
    inference steps. *)
Definition models_to_try : list (string * Z) :=
  [("ByteDance/SDXL-Lightning", 8%Z);
   ("runwayml/stable-diffusion-v1-5", 20%Z);
   ("segmind/SSD-1B", 20%Z);
   ("prompthero/openjourney", 20%Z)].

(** The loop over the models: it stops at the first image; every failure
    becomes [last_error]. *)
Fixpoint try_models (image_prompt : string) (models : list (string * Z))
  (last_error : option exn) : M (option image * option exn) :=
  match models with
  | [] => ret (None, last_error)
  | (model_id, steps) :: rest =>
      r <- try_except
             (img <- call (HfTextToImage image_prompt model_id (Dec 7 5)
                             steps 512 512)
                       (fun w => hf_text_to_image w image_prompt model_id
                                   steps) ;;
              ret (inl img))
             (fun e => ret (inr e)) ;;
      match r with
      | inl img => ret (Some img, last_error)
      | inr e => try_models image_prompt rest (Some e)
      end
  end.

(** The prompt sent to the keyless endpoint: at most 400 characters. *)
Definition final_prompt_of (image_prompt : string) : string :=
  let final_prompt := image_prompt ++ ", vector art, centered, no text" in
  if (400 <? py_len final_prompt)%nat then py_take 400 final_prompt
  else final_prompt.

Definition pollinations_url (final_prompt : string) (seed : N) : string :=
  "https://image.pollinations.ai/prompt/" ++ Lib.quote final_prompt
  ++ "?nologo=true&width=512&height=512&seed=" ++ str_of_N seed
  ++ "&model=flux".

(** The keyless fallback: one GET; every exception inside is swallowed and
    leaves [image] unset, as does a status other than 200. *)
Definition pollinations (image_prompt : string) : M (option image) :=
  try_except
    (let final_prompt := final_prompt_of image_prompt in
     u <- draw_uuid4 ;;
     let url := pollinations_url final_prompt (u mod 10000) in
     response <- call (RequestsGet url 60) (fun w => requests_get w url) ;;
     if (fst response =? 200)%Z
     then img <- consult (fun w => Image_open w (snd response)) ;;
          ret (Some img)
     else ret None)
    (fun e_poll => ret None).

(** Saving the image: the file under [static/generated_logos] and the base64
    text of the same PNG bytes. *)
Definition save_logo (img : image) : M (string * string) :=
  call (Mkdir "static/generated_logos")
       (fun w => path_mkdir w "static/generated_logos") ;;;
  u <- draw_uuid4 ;;
  let filename := "logo_" ++ Lib.uuid_hex u ++ ".png" in
  let file_path := "static/generated_logos/" ++ filename in
  call (ImageSave file_path img) (fun w => image_save w file_path img) ;;;
  ret ("/static/generated_logos/" ++ filename,
       Lib.b64encode (png_bytes img)).

Definition logo_response (image_prompt : string) (img_str : option string)
  (image_url : option string) : json :=
  JObj [("prompt", JStr image_prompt);
        ("image",
         if str_truthy img_str
         then JStr ("data:image/png;base64," ++ fmt img_str)
         else JNull);
        ("file_url",
         match image_url with
         | Some u => JStr u
         | None => JNull
         end)].

Definition concept_prompt (req : LogoRequest) : string :=
  "Generate a concise stable diffusion prompt for a logo for: '"
  ++ logo_description req ++ "'.
Style: " ++ fmt (logo_style req) ++ ".
Requirements:
- Focus on the main subject/icon
- Use comma-separated keywords
- No clear text/letters
- Visual elements only

Example output: minimalist coffee cup, steam, brown and white, vector art, flat design, centered".

(** The engineered prompt built from the reply of the text chain. *)
Definition image_prompt_of (req : LogoRequest) (raw_prompt : string)
  : string :=
  let raw_prompt := strip (replace dq "" (replace "Prompt:" "" raw_prompt)) in
  "logo of " ++ logo_description req ++ ", " ++ raw_prompt
  ++ ", vector, flattened, minimal, white background, high quality, 4k".

(** [AIService.generate_logo] *)
Definition generate_logo (settings : Settings) (self : AIService)
  (req : LogoRequest) : M json :=
  http_500 "Logo generation failed: "
    (match groq_client self with
     | None => no_groq
     | Some _ =>
         raw_prompt <- _generate_text settings self (concept_prompt req) None ;;
         let image_prompt := image_prompt_of req raw_prompt in
         match hf_client self with
         | None => ret (logo_response image_prompt None None)
         | Some _ =>
             tried <- try_models image_prompt models_to_try None ;;
             let last_error := snd tried in
             image <- match fst tried with
                      | Some img => ret (Some img)
                      | None => pollinations image_prompt
                      end ;;
             match image with
             | None =>
                 raise (Exception
                          ("All models failed. Last error: "
                           ++ match last_error with
                              | Some e => str_of_exn e
                              | None => "None"
                              end))
             | Some img =>
                 saved <- save_logo img ;;
                 ret (logo_response image_prompt (Some (snd saved))
                        (Some (fst saved)))
             end
         end
     end).

End AIService.

(** ** Sample configurations, used to run the model on concrete inputs *)

Module Samples.

Import PyStr Json World AIService.
Local Open Scope string_scope.

Definition settings0 : Settings :=
  mkSettings (Some "gsk-key") (Some "hf-key") (Some "g-key")
    "llama-3.3-70b-versatile".

Definition groq0 : Groq := GroqClient "gsk-key".
Definition gemini0 : GenerativeModel := GeminiModel "gemini-pro".
Definition hf0 : InferenceClient := HfClient "hf-key".

(** The service with every client, with no client at all, with Gemini only,
    with Groq only, with both text clients and no image client. *)
Definition full_service : AIService :=
  mkAIService (Some groq0) (Some gemini0) (Some hf0).
Definition bare_service : AIService := mkAIService None None None.
Definition gemini_only : AIService := mkAIService None (Some gemini0) None.
Definition groq_only : AIService := mkAIService (Some groq0) None None.
Definition text_only : AIService :=
  mkAIService (Some groq0) (Some gemini0) None.
Definition groq_and_hf : AIService :=
  mkAIService (Some groq0) None (Some hf0).

Definition quota_error : exn :=
  LibraryError "ResourceExhausted" "429 quota exceeded".
Definition rate_error : exn :=
  LibraryError "RateLimitError" "rate limit reached".
Definition model_error (model : string) : exn :=
  LibraryError "HfHubHTTPError" ("503 model unavailable: " ++ model).
Definition net_error : exn :=
  LibraryError "ConnectionError" "connection refused".

(** An environment given by the reply of Gemini, the reply of Groq, the
    outcome of every image model and the outcome of the GET. Decoding an
    image, creating the directory and writing the file succeed. *)
Definition world_of (gemini groq : result string)
  (hf : string -> result image) (get : result (Z * string)) : env :=
  Env (fun _ => gemini) (fun _ _ _ _ => groq) (fun _ model _ => hf model)
      (fun _ => get) (fun content => Return (Image content))
      (fun _ => Return tt) (fun _ _ => Return tt)
      (fun k => (271828182845 + N.of_nat k)%N).

Definition hf_down (model : string) : result image :=
  Raise (model_error model).

(** Gemini fails and Groq answers [reply]. *)
Definition groq_answers (reply : string) : env :=
  world_of (Raise quota_error) (Return reply) hf_down (Raise net_error).

(** Gemini answers [g] and Groq answers [q]. *)
Definition both_answer (g q : string) : env :=
  world_of (Return g) (Return q) hf_down (Raise net_error).

(** Every provider call fails. *)
Definition all_down : env :=
  world_of (Raise quota_error) (Raise rate_error) hf_down (Raise net_error).

(** Groq answers, every image model fails, the keyless endpoint answers with
    the given status. *)
Definition images_down (status : Z) : env :=
  world_of (Raise quota_error) (Return "Prompt: cup, steam") hf_down
    (Return (status, "not an image")).

Definition logo_request : LogoRequest :=
  mkLogoRequest "a coffee shop" (Some "modern, minimalist").
Definition tagline_request : TaglineRequest :=
  mkTaglineRequest "Acme" "rocket skates" (Some "catchy").
Definition sentiment_request : SentimentRequest :=
  mkSentimentRequest "Great service, slow delivery." None.
Definition content_request : ContentRequest :=
  mkContentRequest "tea" "professional" "blog post".

End Samples.

(** ** [ai_service.py]: voice transcription *)

Module Voice.

Import Json AIService.
Local Open Scope string_scope.

(** The upload: [file.filename] may be absent. *)
Record UploadFile : Type := mkUploadFile { filename : option string }.

(** What [transcribe_voice] does outside the process, in order. *)
Inductive event : Type :=
| UploadRead
| TempFileCreate (suffix : string) (path : string)
| TempFileWrite (path : string) (content : string)
| FileRead (path : string)
| GroqTranscribe (filename : option string) (audio : string)
                 (model : string) (response_format : string)
| Unlink (path : string).

(** How the outside answers: the bytes of the upload, the name of the
    temporary file that gets created, the outcome of writing it and of
    reading it back, the text Groq transcribes, the outcome of the removal. *)
Record env : Type := Env {
  upload_read : result string;
  temp_name : string -> result string;
  temp_write : string -> string -> result unit;
  open_read : string -> result string;
  groq_transcribe : option string -> string -> result string;
  os_unlink : string -> result unit
}.

Definition M (A : Type) : Type := env -> list event -> result A * list event.

Definition ret {A : Type} (a : A) : M A := fun _ l => (Return a, l).

Definition raise {A : Type} (e : exn) : M A := fun _ l => (Raise e, l).

Definition bind {A B : Type} (m : M A) (k : A -> M B) : M B :=
  fun w l =>
    match m w l with
    | (Return a, l') => k a w l'
    | (Raise e, l') => (Raise e, l')
    end.

Definition try_except {A : Type} (m : M A) (h : exn -> M A) : M A :=
  fun w l =>
    match m w l with
    | (Return a, l') => (Return a, l')
    | (Raise e, l') => h e w l'
    end.

Definition call {A : Type} (ev : event) (answer : env -> result A) : M A :=
  fun w l => (answer w, (l ++ [ev])%list).

(** [AIService.transcribe_voice]. The temporary file is created with
    [delete=False]; it is removed by [os.unlink] after the transcription. *)
Definition transcribe_voice (self : AIService) (file : UploadFile) : M json :=
  try_except
    (match groq_client self with
     | None => raise (Exception "Groq Client not initialized")
     | Some _ =>
         bind (call UploadRead upload_read) (fun content =>
         bind (fun w l =>
                 match temp_name w ".m4a" with
                 | Return p => (Return p, (l ++ [TempFileCreate ".m4a" p])%list)
                 | Raise e => (Raise e, l)
                 end) (fun tmp_path =>
         bind (call (TempFileWrite tmp_path content)
                 (fun w => temp_write w tmp_path content)) (fun _ =>
         bind (call (FileRead tmp_path) (fun w => open_read w tmp_path))
           (fun audio =>
         bind (call (GroqTranscribe (filename file) audio
                       "distil-whisper-large-v3-en" "text")
                 (fun w => groq_transcribe w (filename file) audio))
           (fun transcription =>
         bind (call (Unlink tmp_path) (fun w => os_unlink w tmp_path))
           (fun _ =>
         ret (JObj [("transcription", JStr transcription)])))))))
     end)
    (fun e => raise (HTTPException 500 (str_of_exn e))).

Definition is_unlink (ev : event) : bool :=
  match ev with Unlink _ => true | _ => false end.

Definition is_temp_create (ev : event) : bool :=
  match ev with TempFileCreate _ _ => true | _ => false end.

(** A healthy environment: the upload holds [audio], the temporary file is
    [path] and reads back what was written to it, Groq answers [answer]. *)
Definition sample_env (audio path : string) (answer : result string) : env :=
  Env (Return audio) (fun _ => Return path) (fun _ _ => Return tt)
      (fun _ => Return audio) (fun _ _ => answer) (fun _ => Return tt).

End Voice.

(** ** [backend/test.py]: the search for a working image model *)

Module Probe.

Import AIService.
Local Open Scope string_scope.

(** What the script does outside the process: a POST with its URL, its
    authorization header, its prompt and its timeout, and a pause. *)
Inductive event : Type :=
| Post (url : string) (authorization : string) (inputs : string)
       (timeout : Z)
| Sleep (seconds : Z).

(** How the network answers a POST to a URL: a status code, or the exception
    that [requests] raises. *)
Record env : Type := Env { post : string -> result Z }.

Definition router_url (model_id : string) : string :=
  "https://router.huggingface.co/hf-inference/models/" ++ model_id.

Definition legacy_url (model_id : string) : string :=
  "https://api-inference.huggingface.co/models/" ++ model_id.

(** The loop over the URLs: [True] at the first status 200; a failed POST
    and any other status go on to the next URL. *)
Fixpoint try_urls (authorization : string) (urls : list string) (w : env)
  (l : list event) : bool * list event :=
  match urls with
  | [] => (false, l)
  | url :: rest =>
      let l' := (l ++ [Post url authorization
                         "A modern minimal tech company logo" 20])%list in
      match post w url with
      | Return status =>
          if (status =? 200)%Z then (true, l')
          else try_urls authorization rest w l'
      | Raise _ => try_urls authorization rest w l'
      end
  end.

(** [try_model_inference(model_id)]; [HF_TOKEN] is the module variable read
    from the environment. *)
Definition try_model_inference (HF_TOKEN : option string) (model_id : string)
  (w : env) (l : list event) : bool * list event :=
  try_urls ("Bearer " ++ fmt HF_TOKEN)
    [router_url model_id; legacy_url model_id] w l.

Definition models : list string :=
  ["stabilityai/stable-diffusion-2-1";
   "runwayml/stable-diffusion-v1-5";
   "CompVis/stable-diffusion-v1-4";
   "prompthero/openjourney";
   "stabilityai/stable-diffusion-xl-base-1.0"].

(** The loop of the script over [models]: it stops at the first model that
    works and pauses for a second after each one that does not. *)
Fixpoint search (HF_TOKEN : option string) (models : list string) (w : env)
  (l : list event) : list event :=
  match models with
  | [] => l
  | model :: rest =>
      let r := try_model_inference HF_TOKEN model w l in
      if fst r then snd r
      else search HF_TOKEN rest w (snd r ++ [Sleep 1])%list
  end.

(** One of the two endpoints answers 200 for the model. *)
Definition answers_200 (w : env) (url : string) : bool :=
  match post w url with
  | Return status => (status =? 200)%Z
  | Raise _ => false
  end.

Definition works (w : env) (model_id : string) : bool :=
  answers_200 w (router_url model_id) || answers_200 w (legacy_url model_id).

(** The calls for one model: the router, then the legacy endpoint unless
    the router answered 200. *)
Definition posts_for (HF_TOKEN : option string) (w : env)
  (model_id : string) : list event :=
  Post (router_url model_id) ("Bearer " ++ fmt HF_TOKEN)
    "A modern minimal tech company logo" 20
  :: (if answers_200 w (router_url model_id) then []
      else [Post (legacy_url model_id) ("Bearer " ++ fmt HF_TOKEN)
              "A modern minimal tech company logo" 20]).

(** A network where only the legacy endpoint of one model answers 200. *)
Definition only_legacy (model_id : string) : env :=
  Env (fun url =>
         if String.eqb url (legacy_url model_id) then Return 200%Z
         else if String.eqb url (router_url model_id) then Return 404%Z
         else Raise (LibraryError "ConnectionError" "connection refused")).

End Probe.

(** * Properties *)

Import PyStr Json World AIService.
Local Open Scope string_scope.

(** ** The text fallback chain *)

Definition no_client_error : exn :=
  Exception "No working LLM client available (Gemini or Groq)".

(** What Groq answers to the chain for this prompt. *)
Definition groq_reply (settings : Settings) (w : env)
  (prompt : string) (system_instruction : option string) : result string :=
  groq_chat_create w (groq_model settings)
    (messages_of system_instruction prompt) (Dec 0 7) None.

(** What Gemini answers to the chain for this prompt. *)
Definition gemini_reply (w : env) (prompt : string)
  (system_instruction : option string) : result string :=
  genai_generate_content w (full_prompt_of system_instruction prompt).

Definition gemini_event (prompt : string)
  (system_instruction : option string) : event :=
  GeminiGenerateContent (full_prompt_of system_instruction prompt).

Definition groq_event (settings : Settings) (prompt : string)
  (system_instruction : option string) : event :=
  GroqChatCreate (groq_model settings)
    (messages_of system_instruction prompt) (Dec 0 7) None.

(** The log after one more call. *)
Definition logged (st : state) (evs : list event) : state :=
  State (log st ++ evs) (uuids_drawn st).

(** The handler of the operations, on a result. *)
Definition as_http_500 {A : Type} (prefix : string) (r : result A)
  : result A :=
  match r with
  | Return a => Return a
  | Raise e => Raise (HTTPException 500 (prefix ++ str_of_exn e))
  end.

(** ** Vocabulary for the extractor *)


(** The closing bracket that matches an opening one. *)
Definition closer_of (c : ascii) : option ascii :=
  if Ascii.eqb c "[" then Some "]"%char
  else if Ascii.eqb c "{" then Some "}"%char
  else None.

(** The part of [s] up to and including its last character that satisfies
    [p], when there is one. *)
Fixpoint through_last (p : ascii -> bool) (s : string) : option string :=
  match s with
  | EmptyString => None
  | String c s' =>
      match through_last p s' with
      | Some m => Some (String c m)
      | None => if p c then Some (String c EmptyString) else None
      end
  end.

(** The span the pattern finds, without the pattern: it starts at the
    leftmost opening bracket that has a closing bracket of its own kind
    somewhere after it, and ends at the last closing bracket of that kind. *)
Fixpoint bracket_span (s : string) : option string :=
  match s with
  | EmptyString => None
  | String c s' =>
      match closer_of c with
      | Some d =>
          match through_last (fun a => Ascii.eqb a d) s' with
          | Some m => Some (String c m)
          | None => bracket_span s'
          end
      | None => bracket_span s'
      end
  end.

(** What is left of [s] after its last [d]. *)
Fixpoint after_last (d : ascii) (s : string) : option string :=
  match s with
  | EmptyString => None
  | String c s' =>
      match after_last d s' with
      | Some r => Some r
      | None => if Ascii.eqb c d then Some s' else None
      end
  end.




(** ** Vocabulary for the image cascade *)

Definition is_get (ev : event) : bool :=
  match ev with RequestsGet _ _ => true | _ => false end.

Definition is_file_event (ev : event) : bool :=
  match ev with Mkdir _ | ImageSave _ _ => true | _ => false end.

Definition is_image_event (ev : event) : bool :=
  match ev with
  | HfTextToImage _ _ _ _ _ _ | RequestsGet _ _ | Mkdir _ | ImageSave _ _ =>
      true
  | _ => false
  end.

Definition hf_event (image_prompt : string) (m : string * Z) : event :=
  HfTextToImage image_prompt (fst m) (Dec 7 5) (snd m) 512 512.

(** The image the keyless endpoint yields for [url], if any: the GET must
    return, with status 200, a body that decodes. *)
Definition fallback_image (w : env) (url : string) : option image :=
  match requests_get w url with
  | Return (status, body) =>
      if (status =? 200)%Z then
        match Image_open w body with
        | Return img => Some img
        | Raise _ => None
        end
      else None
  | Raise _ => None
  end.

Definition last_model : string * Z := ("prompthero/openjourney", 20%Z).

(** ** Vocabulary for the call sites *)

(** A call site that goes to Groq directly: the one call it makes, and its
    result, [shape] applied to the reply or the error as a status 500. *)
Definition direct_groq_run (settings : Settings) (w : env)
  (messages : list message) (temperature : dec) (max_tokens : option Z)
  (shape : string -> json) : result json * state :=
  (as_http_500 ""
     match groq_chat_create w (groq_model settings) messages temperature
             max_tokens with
     | Return text => Return (shape text)
     | Raise e => Raise e
     end,
   logged initial
     [GroqChatCreate (groq_model settings) messages temperature max_tokens]).

Definition no_groq_error : exn :=
  HTTPException 500 "Groq Client not initialized".

(** The fixed payloads of the four operations that replace a falsy
    extraction. *)
Definition tagline_fallback (req : TaglineRequest) : json :=
  JObj [("taglines",
         JArr [JObj [("tagline",
                      JStr (tagline_brand_name req ++ ": The best choice."));
                     ("logic", JStr "Generic fallback")]])].

Definition product_fallback : json :=
  JObj [("short_description", JStr "Failed to generate description.");
        ("long_description", JStr "Please try again.");
        ("marketing_blurb", JStr EmptyString);
        ("bullets", JArr [])].

Definition sentiment_fallback : json :=
  JObj [("sentiment", JStr "Neutral");
        ("score", JInt 50);
        ("summary", JStr "Could not parse detailed analysis.");
        ("key_issues", JArr [JStr "Analysis format error"]);
        ("suggestions", JArr [JStr "Please try again with different text."])].

Definition analysis_fallback : json :=
  JObj [("sentiment", JStr "Unknown");
        ("impact_score", JInt 0);
        ("reach_potential", JStr "Low");
        ("analysis", JStr "Could not analyze tagline.");
        ("suggestions", JArr []);
        ("better_alternatives", JArr [])].

(** ** Vocabulary for the error contract *)

(** A result that is a value or a status 500. *)
Definition only_http_500 {A : Type} (r : result A) : Prop :=
  match r with
  | Return _ => True
  | Raise e => exists detail, e = HTTPException 500 detail
  end.

Definition is_groq_event (ev : event) : bool :=
  match ev with GroqChatCreate _ _ _ _ => true | _ => false end.


(** The role of a history entry as the code reads it. *)
Definition says_user (msg : list (string * json)) : bool :=
  match dict_get "role" msg with
  | Some (JStr r) => String.eqb r "user"
  | _ => false
  end.

(** ** Vocabulary for the logs *)

(** [m] only adds to the log, and every call it adds satisfies [P]. *)
Definition appends (P : event -> Prop) {A : Type} (m : M A) : Prop :=
  forall w st,
    uuids_drawn st <= uuids_drawn (snd (m w st))
    /\ exists evs,
         log (snd (m w st)) = (log st ++ evs)%list /\ Forall P evs.

Definition text_call (ev : event) : Prop := is_image_event ev = false.
Definition image_call (ev : event) : Prop := is_image_event ev = true.

(** [generate_logo] after the chain has returned [raw]. *)
Definition logo_image_part (self : AIService) (req : LogoRequest)
  (raw_prompt : string) : M json :=
  (let image_prompt := image_prompt_of req raw_prompt in
   match hf_client self with
   | None => ret (logo_response image_prompt None None)
   | Some _ =>
       tried <- try_models image_prompt models_to_try None ;;
       let last_error := snd tried in
       image <- match fst tried with
                | Some img => ret (Some img)
                | None => pollinations image_prompt
                end ;;
       match image with
       | None =>
           raise (Exception
                    ("All models failed. Last error: "
                     ++ match last_error with
                        | Some e => str_of_exn e
                        | None => "None"
                        end))
       | Some img =>
           saved <- save_logo img ;;
           ret (logo_response image_prompt (Some (snd saved))
                  (Some (fst saved)))
       end
   end)%py.

(** ** More sample environments *)

(** Groq answers, the first image model fails and the second one returns an
    image. *)
Definition second_model_answers : env :=
  Samples.world_of (Raise Samples.quota_error) (Return "Prompt: cup, steam")
    (fun model =>
       if String.eqb model "runwayml/stable-diffusion-v1-5"
       then Return (Image "PNG bytes")
       else Raise (Samples.model_error model))
    (Raise Samples.net_error).

(** Groq answers, every image model fails and the keyless endpoint returns
    an image. *)
Definition fallback_answers : env :=
  Samples.world_of (Raise Samples.quota_error) (Return "Prompt: cup, steam")
    Samples.hf_down (Return (200%Z, "PNG bytes")).

(** Where [generate_logo] saves the image whose identifier is [u]. *)
Definition logo_path (u : N) : string :=
  "static/generated_logos/logo_" ++ Lib.uuid_hex u ++ ".png".

(** A conversation whose history holds a system entry, a user entry and an
    entry without role. *)
Definition chat_request : ChatRequest :=
  mkChatRequest "And now?"
    (Some [[("role", JStr "system"); ("content", JStr "be kind")];
           [("role", JStr "user"); ("content", JStr "hi")];
           [("content", JStr "hello")]]).

(** ** Vocabulary for the URL of the keyless endpoint *)

(** Reading back a percent-encoded text. *)
Fixpoint unquote (s : string) : string :=
  match s with
  | EmptyString => EmptyString
  | String c s1 =>
      if Ascii.eqb c "%" then
        match s1 with
        | String a (String b rest) =>
            match hex_of a, hex_of b with
            | Some x, Some y => String (chr (x * 16 + y)) (unquote rest)
            | _, _ => String c (unquote s1)
            end
        | _ => String c (unquote s1)
        end
      else String c (unquote s1)
  end.

(** [s] is empty or begins with a byte that starts a character. *)
Definition starts_character (s : string) : Prop :=
  match s with
  | EmptyString => True
  | String c _ => is_continuation c = false
  end.

(** * Proofs *)

(** ** The state and exception monad *)

Lemma bind_ret {A B : Type} (a : A) (k : A -> M B) w st :
  bind (ret a) k w st = k a w st.
Proof. reflexivity. Qed.

Lemma bind_run {A B : Type} (m : M A) (k : A -> M B) w st a st' :
  m w st = (Return a, st') -> bind m k w st = k a w st'.
Proof. intros H. unfold bind. now rewrite H. Qed.

Lemma bind_raise {A B : Type} (m : M A) (k : A -> M B) w st e st' :
  m w st = (Raise e, st') -> bind m k w st = (Raise e, st').
Proof. intros H. unfold bind. now rewrite H. Qed.

Lemma http_500_run {A : Type} prefix (m : M A) w st :
  http_500 prefix m w st = (as_http_500 prefix (fst (m w st)), snd (m w st)).
Proof.
  unfold http_500, try_except. destruct (m w st) as [[a | e] st']; reflexivity.
Qed.

(** ** The text fallback chain *)

(** The chain, case by case: Gemini's text when Gemini is there and returns;
    otherwise Groq's outcome, whatever it is, when Groq is there; otherwise
    the error that no client is available. *)
Lemma generate_text_cases settings self prompt sys w st :
  _generate_text settings self prompt sys w st =
  match genai_model self with
  | Some _ =>
      match gemini_reply w prompt sys with
      | Return text => (Return text, logged st [gemini_event prompt sys])
      | Raise _ =>
          match groq_client self with
          | Some _ =>
              (groq_reply settings w prompt sys,
               logged st [gemini_event prompt sys;
                          groq_event settings prompt sys])
          | None => (Raise no_client_error, logged st [gemini_event prompt sys])
          end
      end
  | None =>
      match groq_client self with
      | Some _ =>
          (groq_reply settings w prompt sys,
           logged st [groq_event settings prompt sys])
      | None => (Raise no_client_error, st)
      end
  end.
Proof.
  unfold _generate_text, gemini_reply, groq_reply, gemini_event, groq_event,
    logged, groq_create, bind, try_except, call, ret, raise.
  destruct (genai_model self), (groq_client self); cbn;
    try destruct (genai_generate_content w _); cbn;
    try destruct (groq_chat_create w _ _ _ _); cbn;
    rewrite <- ?app_assoc; reflexivity.
Qed.

(** C4. With no text provider configured, [_generate_text] raises the error
    that no client is available, and it makes no call at all: the state, and
    with it the log of calls, is the one it started from. *)
Theorem generate_text_no_provider settings self prompt sys w st :
  genai_model self = None ->
  groq_client self = None ->
  _generate_text settings self prompt sys w st = (Raise no_client_error, st).
Proof.
  intros Hg Hq. rewrite generate_text_cases, Hg, Hq. reflexivity.
Qed.

Lemma generate_text_no_provider_witness :
  _generate_text Samples.settings0 Samples.bare_service "hello" None
    Samples.all_down initial
  = (Raise no_client_error, initial).
Proof.
  apply (generate_text_no_provider Samples.settings0 Samples.bare_service
           "hello" None Samples.all_down initial); reflexivity.
Defined.

(** C5. With both text providers configured, when the call to Gemini raises
    and the call to Groq returns [text], [_generate_text] returns [text], and
    the calls it made are the one to Gemini and then the one to Groq, nothing
    after. *)
Theorem generate_text_second_provider settings self prompt sys w st g q e text :
  genai_model self = Some g ->
  groq_client self = Some q ->
  gemini_reply w prompt sys = Raise e ->
  groq_reply settings w prompt sys = Return text ->
  _generate_text settings self prompt sys w st
  = (Return text,
     logged st [gemini_event prompt sys; groq_event settings prompt sys]).
Proof.
  intros Hg Hq Hgem Hgroq.
  rewrite generate_text_cases, Hg, Hq, Hgem, Hgroq. reflexivity.
Qed.

Lemma generate_text_second_provider_witness :
  _generate_text Samples.settings0 Samples.full_service "hello"
    (Some "be brief") (Samples.groq_answers "hi there") initial
  = (Return "hi there",
     logged initial
       [gemini_event "hello" (Some "be brief");
        groq_event Samples.settings0 "hello" (Some "be brief")]).
Proof.
  apply (generate_text_second_provider Samples.settings0 Samples.full_service
           "hello" (Some "be brief") (Samples.groq_answers "hi there") initial
           Samples.gemini0 Samples.groq0 Samples.quota_error "hi there");
    reflexivity.
Defined.

(** C3, as stated, fails when Gemini is the only provider. Its call raises a
    quota error, or a network error; what [_generate_text] raises is in both
    cases the error that no client is available, the very one it raises with
    no provider at all, and not the provider's error. *)
Lemma generate_text_gemini_only_counterexample :
  genai_model Samples.gemini_only <> None
  /\ groq_client Samples.gemini_only = None
  /\ gemini_reply Samples.all_down "hello" None = Raise Samples.quota_error
  /\ outcome (_generate_text Samples.settings0 Samples.gemini_only "hello" None)
       Samples.all_down
     = Raise (Exception "No working LLM client available (Gemini or Groq)")
  /\ outcome (_generate_text Samples.settings0 Samples.gemini_only "hello" None)
       (Samples.world_of (Raise Samples.net_error) (Raise Samples.rate_error)
          Samples.hf_down (Raise Samples.net_error))
     = Raise (Exception "No working LLM client available (Gemini or Groq)")
  /\ outcome (_generate_text Samples.settings0 Samples.bare_service "hello" None)
       Samples.all_down
     = Raise (Exception "No working LLM client available (Gemini or Groq)").
Proof.
  repeat split; try reflexivity. discriminate.
Qed.

(** C3, amended. When at least one text provider is configured and every
    configured one raises: if Groq is configured, [_generate_text] raises the
    error of the call to Groq, which is the last provider tried; if Gemini is
    the only one, it raises the error that no client is available. *)
Theorem generate_text_all_fail settings self prompt sys w :
  (genai_model self <> None \/ groq_client self <> None) ->
  (genai_model self <> None ->
   exists e, gemini_reply w prompt sys = Raise e) ->
  (groq_client self <> None ->
   exists e, groq_reply settings w prompt sys = Raise e) ->
  (forall e,
     groq_client self <> None ->
     groq_reply settings w prompt sys = Raise e ->
     outcome (_generate_text settings self prompt sys) w = Raise e)
  /\ (groq_client self = None ->
      outcome (_generate_text settings self prompt sys) w
      = Raise no_client_error).
Proof.
  intros _ Hgem Hgroq. unfold outcome, run.
  rewrite generate_text_cases.
  destruct (genai_model self) as [g |], (groq_client self) as [q |].
  - destruct Hgem as [e1 He1]; [discriminate |]. rewrite He1.
    split; [intros e _ He; now rewrite He | discriminate].
  - destruct Hgem as [e1 He1]; [discriminate |]. rewrite He1.
    split; [intros e Hc; now contradiction Hc | reflexivity].
  - split; [intros e _ He; now rewrite He | discriminate].
  - split; [intros e Hc; now contradiction Hc | reflexivity].
Qed.

Lemma generate_text_all_fail_witness :
  outcome (_generate_text Samples.settings0 Samples.text_only "hello" None)
    Samples.all_down
  = Raise Samples.rate_error.
Proof.
  refine (proj1 (generate_text_all_fail Samples.settings0 Samples.text_only
                   "hello" None Samples.all_down _ _ _)
            Samples.rate_error _ _).
  - left. discriminate.
  - intros _. exists Samples.quota_error. reflexivity.
  - intros _. exists Samples.rate_error. reflexivity.
  - discriminate.
  - reflexivity.
Defined.

(** ** The extractor *)


(** The first handler of the extractor is narrow: an exception of the
    decoder that is not a [JSONDecodeError] leaves the extractor. *)
Remark extract_json_using_propagates json_loads text e :
  json_loads text = Raise e ->
  is_JSONDecodeError e = false ->
  extract_json_using json_loads text = Raise e.
Proof.
  intros H He. unfold extract_json_using. now rewrite H, He.
Qed.

(** Greedy [.*] followed by [d]: what is left is what follows the last [d]. *)
Lemma rmatch_star_chr d s :
  Re.rmatch (Re.Cat Re.DotStar (Re.Chr d)) (fun rest => Some rest) s
  = after_last d s.
Proof.
  cbn. induction s as [| c s IH]; [reflexivity |].
  cbn in *. rewrite IH. now destruct (after_last d s).
Qed.

Lemma after_last_through d s :
  match after_last d s with
  | Some rest =>
      String.length rest <= String.length s
      /\ Nat.lt (String.length rest) (S (String.length s))
      /\ through_last (fun a => Ascii.eqb a d) s
         = Some (Re.take_bytes (String.length s - String.length rest) s)
  | None => through_last (fun a => Ascii.eqb a d) s = None
  end.
Proof.
  induction s as [| c s IH]; [reflexivity |].
  cbn [after_last through_last String.length].
  destruct (after_last d s) as [rest |].
  - destruct IH as (Hle & _ & ->). repeat split; try lia.
    replace (S (String.length s) - String.length rest)
      with (S (String.length s - String.length rest)) by lia.
    reflexivity.
  - rewrite IH. destruct (Ascii.eqb c d); [| reflexivity].
    repeat split; try lia.
    replace (S (String.length s) - String.length s) with 1 by lia.
    reflexivity.
Qed.

(** The pattern at the head of a text: it matches when the first character
    is an opening bracket and its closing bracket occurs later. *)
Lemma rmatch_json_pattern c s :
  Re.rmatch Re.json_pattern (fun rest => Some rest) (String c s)
  = match closer_of c with
    | Some d => after_last d s
    | None => None
    end.
Proof.
  change (Re.rmatch Re.json_pattern (fun rest => Some rest) (String c s))
    with (match (if Ascii.eqb c "["
                 then Re.rmatch (Re.Cat Re.DotStar (Re.Chr "]"))
                        (fun rest => Some rest) s
                 else None) with
          | Some x => Some x
          | None =>
              if Ascii.eqb c "{"
              then Re.rmatch (Re.Cat Re.DotStar (Re.Chr "}"))
                     (fun rest => Some rest) s
              else None
          end).
  rewrite !rmatch_star_chr. unfold closer_of.
  destruct (Ascii.eqb c "[") eqn:E1.
  - apply Ascii.eqb_eq in E1. subst c. cbn.
    now destruct (after_last "]" s).
  - now destruct (Ascii.eqb c "{").
Qed.

(** [re.search] with the pattern of the extractor finds [bracket_span]. *)
Lemma search_json_pattern s :
  Re.search Re.json_pattern s = bracket_span s.
Proof.
  induction s as [| c s IH]; [reflexivity |].
  change (Re.search Re.json_pattern (String c s))
    with (match Re.rmatch Re.json_pattern (fun rest => Some rest) (String c s)
          with
          | Some rest =>
              Some (Re.take_bytes
                      (String.length (String c s) - String.length rest)
                      (String c s))
          | None => Re.search Re.json_pattern s
          end).
  rewrite rmatch_json_pattern. cbn [bracket_span].
  destruct (closer_of c) as [d |]; [| exact IH].
  pose proof (after_last_through d s) as H.
  destruct (after_last d s) as [rest |].
  - destruct H as (Hle & _ & ->). cbn [String.length].
    replace (S (String.length s) - String.length rest)
      with (S (String.length s - String.length rest)) by lia.
    reflexivity.
  - rewrite H. exact IH.
Qed.





(** ** The call sites *)

(** An operation that goes through the chain continues, once the chain has
    returned [text], with its own treatment of [text]. *)
Lemma chain_site_run settings self prompt sys (finish : string -> M json)
  w st text st' :
  _generate_text settings self prompt sys w st = (Return text, st') ->
  http_500 "" (result <- _generate_text settings self prompt sys ;;
               finish result)%py w st
  = http_500 "" (finish text) w st'.
Proof.
  intros H. unfold http_500, try_except. now rewrite (bind_run _ _ _ _ _ _ H).
Qed.

(** The four treatments that replace a falsy extraction by a fixed payload. *)
Lemma tagline_finish_falsy req text v w st :
  _extract_json text = Return v -> truthy v = false ->
  http_500 "" (tagline_finish req text) w st
  = (Return (tagline_fallback req), st).
Proof.
  intros E T. unfold http_500, try_except, tagline_finish, bind, lift.
  rewrite E. cbn. rewrite T. reflexivity.
Qed.

Lemma product_finish_falsy text v w st :
  _extract_json text = Return v -> truthy v = false ->
  http_500 "" (product_finish text) w st = (Return product_fallback, st).
Proof.
  intros E T. unfold http_500, try_except, product_finish, bind, lift.
  rewrite E. cbn. rewrite T. reflexivity.
Qed.

Lemma sentiment_finish_falsy text v w st :
  _extract_json text = Return v -> truthy v = false ->
  http_500 "" (sentiment_finish text) w st = (Return sentiment_fallback, st).
Proof.
  intros E T. unfold http_500, try_except, sentiment_finish, bind, lift.
  rewrite E. cbn. rewrite T. reflexivity.
Qed.

Lemma analysis_finish_falsy text v w st :
  _extract_json text = Return v -> truthy v = false ->
  http_500 "" (analysis_finish text) w st = (Return analysis_fallback, st).
Proof.
  intros E T. unfold http_500, try_except, analysis_finish, bind, lift.
  rewrite E. cbn. rewrite T. reflexivity.
Qed.

(** C8. When the text that the chain returned for a sentiment request yields
    no JSON (the extractor gives [None]), [analyze_sentiment] returns exactly
    the neutral payload, with no error and no further call. *)
Theorem analyze_sentiment_fallback settings self req w text st :
  _generate_text settings self (sentiment_prompt req) (Some sentiment_system)
    w initial
  = (Return text, st) ->
  _extract_json text = Return JNull ->
  run (analyze_sentiment settings self req) w
  = (Return
       (JObj [("sentiment", JStr "Neutral");
              ("score", JInt 50);
              ("summary", JStr "Could not parse detailed analysis.");
              ("key_issues", JArr [JStr "Analysis format error"]);
              ("suggestions",
               JArr [JStr "Please try again with different text."])]),
     st).
Proof.
  intros Hrun Hnone. unfold run, analyze_sentiment.
  rewrite (chain_site_run _ _ _ _ _ _ _ _ _ Hrun).
  now apply (sentiment_finish_falsy text JNull).
Qed.

Lemma analyze_sentiment_fallback_witness :
  run (analyze_sentiment Samples.settings0 Samples.full_service
         Samples.sentiment_request)
    (Samples.groq_answers "not json at all")
  = (Return
       (JObj [("sentiment", JStr "Neutral");
              ("score", JInt 50);
              ("summary", JStr "Could not parse detailed analysis.");
              ("key_issues", JArr [JStr "Analysis format error"]);
              ("suggestions",
               JArr [JStr "Please try again with different text."])]),
     logged initial
       [gemini_event (sentiment_prompt Samples.sentiment_request)
          (Some sentiment_system);
        groq_event Samples.settings0
          (sentiment_prompt Samples.sentiment_request)
          (Some sentiment_system)]).
Proof.
  apply (analyze_sentiment_fallback Samples.settings0 Samples.full_service
           Samples.sentiment_request (Samples.groq_answers "not json at all")
           "not json at all").
  - reflexivity.
  - vm_compute. reflexivity.
Defined.

(** C10. In the tagline, product description, sentiment and tagline analysis
    operations the fixed payload replaces every falsy extraction, not only
    [None]: whenever the extractor returns a value [v] that Python takes for
    false (an empty list or dict, zero, the empty string, false, [None]) the
    operation returns its payload. So the reply [[]] to [generate_tagline]
    gives the fallback tagline, not an empty list. *)
Theorem falsy_extraction_gives_fallback settings self w text v :
  _extract_json text = Return v ->
  truthy v = false ->
  (forall req st,
     _generate_text settings self (tagline_prompt req) (Some tagline_system)
       w initial = (Return text, st) ->
     run (generate_tagline settings self req) w
     = (Return (tagline_fallback req), st))
  /\ (forall req st,
        _generate_text settings self (product_prompt req)
          (Some product_system) w initial = (Return text, st) ->
        run (generate_product_description settings self req) w
        = (Return product_fallback, st))
  /\ (forall req st,
        _generate_text settings self (sentiment_prompt req)
          (Some sentiment_system) w initial = (Return text, st) ->
        run (analyze_sentiment settings self req) w
        = (Return sentiment_fallback, st))
  /\ (forall req st,
        _generate_text settings self (analysis_prompt req)
          (Some analysis_system) w initial = (Return text, st) ->
        run (analyze_tagline settings self req) w
        = (Return analysis_fallback, st)).
Proof.
  intros E T. repeat split; intros req st Hrun; unfold run.
  - unfold generate_tagline. rewrite (chain_site_run _ _ _ _ _ _ _ _ _ Hrun).
    now apply (tagline_finish_falsy req text v).
  - unfold generate_product_description.
    rewrite (chain_site_run _ _ _ _ _ _ _ _ _ Hrun).
    now apply (product_finish_falsy text v).
  - unfold analyze_sentiment. rewrite (chain_site_run _ _ _ _ _ _ _ _ _ Hrun).
    now apply (sentiment_finish_falsy text v).
  - unfold analyze_tagline. rewrite (chain_site_run _ _ _ _ _ _ _ _ _ Hrun).
    now apply (analysis_finish_falsy text v).
Qed.

Lemma falsy_extraction_gives_fallback_witness :
  _extract_json "[]" = Return (JArr [])
  /\ run (generate_tagline Samples.settings0 Samples.full_service
            Samples.tagline_request)
       (Samples.both_answer "[]" "unused")
     = (Return
          (JObj [("taglines",
                  JArr [JObj [("tagline", JStr "Acme: The best choice.");
                              ("logic", JStr "Generic fallback")]])]),
        logged initial
          [gemini_event (tagline_prompt Samples.tagline_request)
             (Some tagline_system)]).
Proof.
  split; [vm_compute; reflexivity |].
  refine (proj1 (falsy_extraction_gives_fallback Samples.settings0
                   Samples.full_service (Samples.both_answer "[]" "unused")
                   "[]" (JArr []) _ _)
            Samples.tagline_request _ _).
  - vm_compute. reflexivity.
  - reflexivity.
  - reflexivity.
Defined.

(** The chain draws no identifier and makes text calls only. *)
Lemma generate_text_state settings self prompt sys w st r st' :
  _generate_text settings self prompt sys w st = (r, st') ->
  uuids_drawn st' = uuids_drawn st
  /\ exists evs,
       log st' = (log st ++ evs)%list
       /\ Forall (fun ev => is_image_event ev = false) evs.
Proof.
  rewrite generate_text_cases. unfold logged.
  destruct (genai_model self), (groq_client self);
    try destruct (gemini_reply w prompt sys);
    intros [= <- <-]; cbn; (split; [reflexivity |]);
    try (eexists; split; [reflexivity | repeat constructor]).
  all: exists []; split; [now rewrite app_nil_r | constructor].
Qed.

Lemma filter_none {A : Type} (p : A -> bool) (l : list A) :
  Forall (fun x => p x = false) l -> filter p l = [].
Proof.
  induction 1 as [| x l Hx _ IH]; [reflexivity |]. cbn. now rewrite Hx.
Qed.

(** ** The image cascade without an image client *)




(** ** Which call sites use the chain *)

Lemma generate_text_first_provider settings self prompt sys w st g text :
  genai_model self = Some g ->
  gemini_reply w prompt sys = Return text ->
  _generate_text settings self prompt sys w st
  = (Return text, logged st [gemini_event prompt sys]).
Proof.
  intros Hg Hr. now rewrite generate_text_cases, Hg, Hr.
Qed.

(** A call site that goes to Groq directly, whatever Gemini would say. *)
Lemma direct_groq_site settings self w messages temperature max_tokens shape :
  http_500 ""
    (match groq_client self with
     | None => no_groq
     | Some _ =>
         text <- groq_create settings messages temperature max_tokens ;;
         ret (shape text)
     end)%py w initial
  = match groq_client self with
    | Some _ =>
        direct_groq_run settings w messages temperature max_tokens shape
    | None => (Raise no_groq_error, initial)
    end.
Proof.
  unfold direct_groq_run, http_500, try_except, no_groq, groq_create, bind,
    call, ret, raise, logged.
  destruct (groq_client self); [| reflexivity].
  now destruct (groq_chat_create w _ messages temperature max_tokens).
Qed.

(** C2, as stated, fails for [generate_content]: Gemini is configured and
    would answer, yet the text in the result is Groq's and Gemini is never
    called; with Gemini alone the operation fails. *)
Lemma generate_content_bypasses_chain_counterexample :
  genai_model Samples.full_service = Some Samples.gemini0
  /\ gemini_reply (Samples.both_answer "from Gemini" "from Groq")
       (content_prompt Samples.content_request) None
     = Return "from Gemini"
  /\ run (generate_content Samples.settings0 Samples.full_service
            Samples.content_request)
       (Samples.both_answer "from Gemini" "from Groq")
     = (Return (JObj [("content", JStr "from Groq")]),
        logged initial
          [GroqChatCreate "llama-3.3-70b-versatile"
             [Message "user"
                (JStr (content_prompt Samples.content_request))]
             (Dec 0 7) None])
  /\ run (generate_content Samples.settings0 Samples.gemini_only
            Samples.content_request)
       (Samples.both_answer "from Gemini" "from Groq")
     = (Raise (HTTPException 500 "Groq Client not initialized"), initial).
Proof.
  repeat split; vm_compute; reflexivity.
Qed.

(** C2, amended. Five call sites (brand names, taglines, tagline analysis,
    product description, sentiment) obtain their text from the chain: when
    Gemini is configured and answers, they make the one call to Gemini and
    go on with its text. The other three (general content, colour palette,
    chat) call Groq directly and never Gemini: their result is built from
    Groq's reply, and without a Groq client they fail. *)
Theorem call_sites_and_chain settings self w g reply :
  genai_model self = Some g ->
  (forall p, genai_generate_content w p = Return (reply p)) ->
  (forall req,
     run (generate_brand settings self req) w
     = http_500 ""
         (brand_finish
            (reply (full_prompt_of (Some brand_system) (brand_prompt req))))
         w (logged initial [gemini_event (brand_prompt req)
                              (Some brand_system)]))
  /\ (forall req,
        run (generate_tagline settings self req) w
        = http_500 ""
            (tagline_finish req
               (reply (full_prompt_of (Some tagline_system)
                         (tagline_prompt req))))
            w (logged initial [gemini_event (tagline_prompt req)
                                 (Some tagline_system)]))
  /\ (forall req,
        run (analyze_tagline settings self req) w
        = http_500 ""
            (analysis_finish
               (reply (full_prompt_of (Some analysis_system)
                         (analysis_prompt req))))
            w (logged initial [gemini_event (analysis_prompt req)
                                 (Some analysis_system)]))
  /\ (forall req,
        run (generate_product_description settings self req) w
        = http_500 ""
            (product_finish
               (reply (full_prompt_of (Some product_system)
                         (product_prompt req))))
            w (logged initial [gemini_event (product_prompt req)
                                 (Some product_system)]))
  /\ (forall req,
        run (analyze_sentiment settings self req) w
        = http_500 ""
            (sentiment_finish
               (reply (full_prompt_of (Some sentiment_system)
                         (sentiment_prompt req))))
            w (logged initial [gemini_event (sentiment_prompt req)
                                 (Some sentiment_system)]))
  /\ (forall req,
        run (generate_content settings self req) w
        = match groq_client self with
          | Some _ =>
              direct_groq_run settings w
                [Message "user" (JStr (content_prompt req))] (Dec 0 7) None
                (fun text => JObj [("content", JStr text)])
          | None => (Raise no_groq_error, initial)
          end)
  /\ (forall req,
        run (get_colors settings self req) w
        = match groq_client self with
          | Some _ =>
              direct_groq_run settings w
                [Message "user" (JStr (colors_prompt req))] (Dec 0 5) None
                (fun text =>
                   JObj [("colors", JArr (map JStr (parse_colors text)))])
          | None => (Raise no_groq_error, initial)
          end)
  /\ (forall req history,
        chat_history req = Some history ->
        run (chat settings self req) w
        = match groq_client self with
          | Some _ =>
              direct_groq_run settings w (chat_messages req history)
                (Dec 0 7) (Some 1000%Z)
                (fun text => JObj [("reply", JStr text)])
          | None => (Raise no_groq_error, initial)
          end).
Proof.
  intros Hg Hreply.
  assert (Hchain : forall prompt sys (finish : string -> M json),
             run (http_500 ""
                    (result <- _generate_text settings self prompt sys ;;
                     finish result)%py) w
             = http_500 "" (finish (reply (full_prompt_of sys prompt)))
                 w (logged initial [gemini_event prompt sys])).
  { intros prompt sys finish. unfold run. apply chain_site_run.
    apply (generate_text_first_provider _ _ _ _ _ _ g); [exact Hg |].
    apply Hreply. }
  repeat split; intros; try apply Hchain.
  - apply (direct_groq_site settings self w).
  - apply (direct_groq_site settings self w).
  - unfold run, chat. rewrite <- (direct_groq_site settings self w).
    destruct (groq_client self); [| reflexivity]. now rewrite H.
Qed.

Lemma call_sites_and_chain_witness :
  run (generate_tagline Samples.settings0 Samples.full_service
         Samples.tagline_request)
    (Samples.both_answer "from Gemini" "from Groq")
  = http_500 "" (tagline_finish Samples.tagline_request "from Gemini")
      (Samples.both_answer "from Gemini" "from Groq")
      (logged initial
         [gemini_event (tagline_prompt Samples.tagline_request)
            (Some tagline_system)]).
Proof.
  refine (proj1 (proj2 (call_sites_and_chain Samples.settings0
                          Samples.full_service
                          (Samples.both_answer "from Gemini" "from Groq")
                          Samples.gemini0 (fun _ => "from Gemini") _ _))
            Samples.tagline_request).
  - reflexivity.
  - intros p. reflexivity.
Defined.

(** ** The image cascade when every model fails *)

Lemma py_len_take_continuation s : py_len (take_continuation s) = 0.
Proof.
  induction s as [| c s IH]; [reflexivity |]. cbn.
  destruct (is_continuation c) eqn:E; [| reflexivity]. cbn. now rewrite E.
Qed.

(** A slice of [n] characters has at most [n] characters. *)
Lemma py_len_take s : forall n, py_len (py_take n s) <= n.
Proof.
  induction s as [| c s IH]; intros [| n]; cbn; try lia.
  destruct (is_continuation c) eqn:E; cbn; rewrite E.
  - apply (IH (S n)).
  - destruct n as [| n].
    + rewrite py_len_take_continuation. lia.
    + specialize (IH (S n)). lia.
Qed.

Lemma final_prompt_length image_prompt :
  py_len (final_prompt_of image_prompt) <= 400.
Proof.
  unfold final_prompt_of.
  destruct (Nat.ltb_spec 400
              (py_len (image_prompt ++ ", vector art, centered, no text"))).
  - apply py_len_take.
  - assumption.
Qed.

(** When every model raises, the loop has called each once, in order, and
    ends without an image, holding the error of the last one. *)
Lemma try_models_all_fail w image_prompt err :
  forall models last st,
    (forall m, In m models ->
               hf_text_to_image w image_prompt (fst m) (snd m)
               = Raise (err m)) ->
    try_models image_prompt models last w st
    = (Return (None, fold_left (fun _ m => Some (err m)) models last),
       logged st (map (hf_event image_prompt) models)).
Proof.
  induction models as [| [model steps] models IH]; intros last st H.
  - cbn. unfold ret, logged. now rewrite app_nil_r; destruct st.
  - cbn [try_models]. unfold bind at 1, try_except, call at 1.
    unfold bind at 1.
    pose proof (H (model, steps) (or_introl eq_refl)) as H1.
    cbn [fst snd] in H1. rewrite H1.
    unfold ret at 1. rewrite IH by (intros m Hm; apply H; now right).
    unfold logged. cbn [log uuids_drawn map fold_left].
    now rewrite <- app_assoc.
Qed.

(** The keyless fallback: one identifier drawn for the seed, one GET, and
    the image, if the endpoint yields one. Nothing it raises gets out. *)
Lemma pollinations_run image_prompt w st :
  pollinations image_prompt w st
  = (Return
       (fallback_image w
          (pollinations_url (final_prompt_of image_prompt)
             (uuid4 w (uuids_drawn st) mod 10000))),
     State (log st
            ++ [RequestsGet
                  (pollinations_url (final_prompt_of image_prompt)
                     (uuid4 w (uuids_drawn st) mod 10000)) 60])%list
       (S (uuids_drawn st))).
Proof.
  unfold pollinations, fallback_image, try_except, bind, draw_uuid4, call,
    consult, ret.
  cbn [log uuids_drawn].
  destruct (requests_get w _) as [[status body] | e]; [| reflexivity].
  cbn [fst snd]. destruct (status =? 200)%Z; [| reflexivity].
  now destruct (Image_open w body).
Qed.

(** [generate_logo] when every model raises: the chain, the four models, the
    one GET; then the error, or the image of the fallback being saved. *)
Lemma generate_logo_models_fail settings self req w q h raw st err :
  groq_client self = Some q ->
  hf_client self = Some h ->
  _generate_text settings self (concept_prompt req) None w initial
  = (Return raw, st) ->
  (forall m, In m models_to_try ->
             hf_text_to_image w (image_prompt_of req raw) (fst m) (snd m)
             = Raise (err m)) ->
  let image_prompt := image_prompt_of req raw in
  let url := pollinations_url (final_prompt_of image_prompt)
               (uuid4 w (uuids_drawn st) mod 10000) in
  let st2 := State (log st ++ map (hf_event image_prompt) models_to_try
                    ++ [RequestsGet url 60])%list (S (uuids_drawn st)) in
  generate_logo settings self req w initial
  = match fallback_image w url with
    | None =>
        (Raise (HTTPException 500
                  ("Logo generation failed: All models failed. Last error: "
                   ++ str_of_exn (err last_model))),
         st2)
    | Some img =>
        http_500 "Logo generation failed: "
          (saved <- save_logo img ;;
           ret (logo_response image_prompt (Some (snd saved))
                  (Some (fst saved))))%py w st2
    end.
Proof.
  intros Hq Hhf Hrun Hfail image_prompt url st2.
  unfold generate_logo. rewrite Hq, Hhf.
  unfold http_500, try_except.
  rewrite (bind_run _ _ _ _ _ _ Hrun).
  fold image_prompt.
  rewrite (bind_run _ _ _ _ _ _ (try_models_all_fail w image_prompt err _ None st Hfail)).
  cbn [fst snd].
  rewrite (bind_run _ _ _ _ _ _ (pollinations_run image_prompt w _)).
  unfold logged. cbn [log uuids_drawn]. rewrite <- app_assoc.
  fold url. fold st2.
  destruct (fallback_image w url) as [img |]; reflexivity.
Qed.

(** Saving fetches nothing. *)
Lemma save_logo_log img w st :
  exists evs,
    log (snd (save_logo img w st)) = (log st ++ evs)%list
    /\ Forall (fun ev => is_get ev = false) evs.
Proof.
  unfold save_logo, bind, call, draw_uuid4, ret.
  cbn [log uuids_drawn].
  destruct (path_mkdir w _); cbn [snd log].
  - destruct (image_save w _ img); cbn [snd log];
      rewrite <- app_assoc; eexists; (split; [reflexivity |]);
      repeat constructor.
  - eexists; split; [reflexivity |]. repeat constructor.
Qed.

Lemma not_image_not_get ev : is_image_event ev = false -> is_get ev = false.
Proof. now destruct ev. Qed.

Lemma not_image_not_file ev :
  is_image_event ev = false -> is_file_event ev = false.
Proof. now destruct ev. Qed.

Lemma bind_ret_state {A B : Type} (m : M A) (f : A -> B) w st :
  snd (http_500 "Logo generation failed: "
         (a <- m ;; ret (f a))%py w st)
  = snd (m w st).
Proof.
  unfold http_500, try_except, bind, ret, raise.
  now destruct (m w st) as [[a | e] st'].
Qed.

Lemma hf_events_no_get image_prompt models :
  filter is_get (map (hf_event image_prompt) models) = [].
Proof. induction models; [reflexivity | exact IHmodels]. Qed.

Lemma hf_events_no_file image_prompt models :
  filter is_file_event (map (hf_event image_prompt) models) = [].
Proof. induction models; [reflexivity | exact IHmodels]. Qed.

(** C9. When every configured image model raises, the keyless endpoint is
    fetched exactly once: the log holds one GET, whose URL is built from the
    percent-encoded prompt, the prompt before encoding having at most 400
    characters. When the endpoint yields no image (the GET raises, its
    status is not 200, or the body does not decode), [generate_logo] raises
    the error that all models failed, which carries the error of the last
    model tried, as a status 500, and no directory or file is written. *)
Theorem logo_fallback_once settings self req w q h raw st err :
  groq_client self = Some q ->
  hf_client self = Some h ->
  _generate_text settings self (concept_prompt req) None w initial
  = (Return raw, st) ->
  (forall m, In m models_to_try ->
             hf_text_to_image w (image_prompt_of req raw) (fst m) (snd m)
             = Raise (err m)) ->
  let final_prompt := final_prompt_of (image_prompt_of req raw) in
  let url := pollinations_url final_prompt (uuid4 w 0 mod 10000) in
  py_len final_prompt <= 400
  /\ filter is_get (trace (generate_logo settings self req) w)
     = [RequestsGet url 60]
  /\ (fallback_image w url = None ->
      outcome (generate_logo settings self req) w
      = Raise (HTTPException 500
                 ("Logo generation failed: All models failed. Last error: "
                  ++ str_of_exn (err last_model)))
      /\ filter is_file_event (trace (generate_logo settings self req) w)
         = []).
Proof.
  intros Hq Hhf Hrun Hfail final_prompt url.
  destruct (generate_text_state _ _ _ _ _ _ _ _ Hrun)
    as (Hu & evs & Hlog & Hev).
  cbn in Hu, Hlog.
  pose proof (generate_logo_models_fail _ _ _ _ _ _ _ _ _ Hq Hhf Hrun Hfail)
    as Hlogo.
  cbn zeta in Hlogo. rewrite Hu in Hlogo. fold final_prompt url in Hlogo.
  split; [apply final_prompt_length |].
  unfold trace, outcome, run. rewrite Hlogo, Hlog.
  split.
  - destruct (fallback_image w url) as [img |].
    + rewrite bind_ret_state.
      destruct (save_logo_log img w
                  (State (evs ++ map (hf_event (image_prompt_of req raw))
                                   models_to_try
                          ++ [RequestsGet url 60])%list 1))
        as (evs' & -> & Hev').
      cbn [log]. rewrite !filter_app, hf_events_no_get.
      rewrite (filter_none is_get evs), (filter_none is_get evs'); trivial.
      eapply Forall_impl; [| exact Hev]. apply not_image_not_get.
    + cbn [snd log]. rewrite !filter_app, hf_events_no_get.
      rewrite (filter_none is_get evs); [reflexivity |].
      eapply Forall_impl; [| exact Hev]. apply not_image_not_get.
  - intros ->. split; [reflexivity |].
    cbn [snd log]. rewrite !filter_app, hf_events_no_file.
    rewrite (filter_none is_file_event evs); [reflexivity |].
    eapply Forall_impl; [| exact Hev]. apply not_image_not_file.
Qed.

Lemma logo_fallback_once_witness :
  filter is_get
    (trace (generate_logo Samples.settings0 Samples.groq_and_hf
              Samples.logo_request)
       (Samples.images_down 404))
  = [RequestsGet
       "https://image.pollinations.ai/prompt/logo%20of%20a%20coffee%20shop%2C%20cup%2C%20steam%2C%20vector%2C%20flattened%2C%20minimal%2C%20white%20background%2C%20high%20quality%2C%204k%2C%20vector%20art%2C%20centered%2C%20no%20text?nologo=true&width=512&height=512&seed=2845&model=flux"
       60]
  /\ outcome (generate_logo Samples.settings0 Samples.groq_and_hf
                Samples.logo_request)
       (Samples.images_down 404)
     = Raise (HTTPException 500
                "Logo generation failed: All models failed. Last error: 503 model unavailable: prompthero/openjourney")
  /\ filter is_file_event
       (trace (generate_logo Samples.settings0 Samples.groq_and_hf
                 Samples.logo_request)
          (Samples.images_down 404))
     = [].
Proof.
  destruct (logo_fallback_once Samples.settings0 Samples.groq_and_hf
              Samples.logo_request (Samples.images_down 404) Samples.groq0
              Samples.hf0 "Prompt: cup, steam"
              (logged initial
                 [groq_event Samples.settings0
                    (concept_prompt Samples.logo_request) None])
              (fun m => Samples.model_error (fst m))
              eq_refl eq_refl eq_refl (fun m _ => eq_refl))
    as (_ & Hget & Hfail).
  split; [exact Hget |]. apply Hfail. reflexivity.
Defined.

(** ** The constructor *)

(** Without [HF_API_KEY] the constructor does not return: it reads an
    attribute that the settings do not have. A service without an image
    client is a state of the object that the constructor never builds. *)
Remark init_without_hf_key settings genai_setup :
  HF_API_KEY settings = None ->
  __init__ settings genai_setup
  = Raise (LibraryError "AttributeError"
             "'Settings' object has no attribute 'HUGGINGFACE_TOKEN'").
Proof.
  intros H. unfold __init__. now rewrite H.
Qed.

Remark init_with_hf_key settings genai_setup key :
  HF_API_KEY settings = Some key ->
  is_empty key = false ->
  exists self,
    __init__ settings genai_setup = Return self
    /\ hf_client self = Some (HfClient key).
Proof.
  intros H E. unfold __init__. rewrite H, E. eexists. split; reflexivity.
Qed.

(** ** Checks on concrete inputs *)

(** The decoder on well-formed and ill-formed documents. *)
Example loads_nested :
  Json.loads ("{" ++ qt "a" ++ ": [1, -2.5e3, true, null, " ++ qt "x\ty"
              ++ "], " ++ qt "a" ++ ": {}}")
  = Return (JObj [("a", JObj [])]).
Proof. vm_compute. reflexivity. Qed.

Example loads_array_of_strings :
  _extract_json ("[" ++ qt "x" ++ ", " ++ qt "y" ++ "]")
  = Return (JArr [JStr "x"; JStr "y"]).
Proof. vm_compute. reflexivity. Qed.

Example loads_rejects_trailing_comma :
  Json.loads "[1, 2,]" = Raise (JSONDecodeError "Expecting value").
Proof. vm_compute. reflexivity. Qed.

Example loads_rejects_two_documents :
  Json.loads "[1] [2]" = Raise (JSONDecodeError "Expecting value").
Proof. vm_compute. reflexivity. Qed.

Example loads_rejects_leading_zero :
  Json.loads "012" = Raise (JSONDecodeError "Expecting value").
Proof. vm_compute. reflexivity. Qed.

(** The pattern skips an opening bracket that is never closed, and pairs
    each bracket with its own kind. *)
Example search_skips_unclosed :
  Re.search Re.json_pattern "{ [1, 2] x" = Some "[1, 2]".
Proof. vm_compute. reflexivity. Qed.

Example search_is_greedy :
  Re.search Re.json_pattern "a [1] b [2] c" = Some "[1] b [2]".
Proof. vm_compute. reflexivity. Qed.

(** A reply that holds two JSON fragments is lost: the greedy span is not
    JSON. *)
Example extract_json_two_fragments :
  _extract_json "a [1] b [2] c" = Return JNull.
Proof. vm_compute. reflexivity. Qed.

(** The comma fallback of [generate_brand] and the colour filter of
    [get_colors]. *)
Example brand_comma_fallback :
  fst (brand_finish "x, y, z" Samples.all_down initial)
  = Return (JObj [("brand_names", JArr [JStr "x"; JStr "y"; JStr "z"])]).
Proof. vm_compute. reflexivity. Qed.

Example colors_keep_hex_codes :
  parse_colors "#FF0000, #00FF00, blue, #0000FF"
  = ["#FF0000"; "#00FF00"; "#0000FF"].
Proof. vm_compute. reflexivity. Qed.

(** A prompt longer than 400 characters is cut to 400 before it is encoded. *)
Example final_prompt_is_cut :
  py_len
    (final_prompt_of
       (image_prompt_of
          (mkLogoRequest
             "a very long description, a very long description, a very long description, a very long description, a very long description, a very long description, a very long description, a very long description"
             None)
          "one more long fragment, one more long fragment, one more long fragment, one more long fragment, one more long fragment, one more long fragment, one more long fragment, one more long fragment"))
  = 400.
Proof. vm_compute. reflexivity. Qed.

(** With an image model that answers, the cascade stops there: no GET, and
    the file and the inline image hold the same bytes. *)
Example generate_logo_first_model :
  run (generate_logo Samples.settings0 Samples.groq_and_hf
         Samples.logo_request)
    (Samples.world_of (Raise Samples.quota_error)
       (Return "Prompt: cup, steam") (fun _ => Return (Image "PNG"))
       (Raise Samples.net_error))
  = (Return
       (JObj [("prompt",
               JStr "logo of a coffee shop, cup, steam, vector, flattened, minimal, white background, high quality, 4k");
              ("image", JStr "data:image/png;base64,UE5H");
              ("file_url",
               JStr "/static/generated_logos/logo_00000000000000000000003f4a38e73d.png")]),
     State
       [groq_event Samples.settings0 (concept_prompt Samples.logo_request)
          None;
        hf_event
          "logo of a coffee shop, cup, steam, vector, flattened, minimal, white background, high quality, 4k"
          ("ByteDance/SDXL-Lightning", 8%Z);
        Mkdir "static/generated_logos";
        ImageSave
          "static/generated_logos/logo_00000000000000000000003f4a38e73d.png"
          (Image "PNG")]
       1).
Proof. vm_compute. reflexivity. Qed.

(** * Further properties of the service *)

(** ** The chain: which calls it makes *)

(** X1. [_generate_text] calls each provider at most once and Gemini first:
    its log is empty, or the call to Gemini, or the call to Groq, or both in
    that order. Gemini is called exactly when it is configured; Groq is
    called exactly when it is configured and Gemini is absent or raised. *)
Theorem generate_text_calls settings self prompt sys w :
  let t := trace (_generate_text settings self prompt sys) w in
  (t = [] \/ t = [gemini_event prompt sys]
   \/ t = [groq_event settings prompt sys]
   \/ t = [gemini_event prompt sys; groq_event settings prompt sys])
  /\ (In (gemini_event prompt sys) t <-> genai_model self <> None)
  /\ (In (groq_event settings prompt sys) t <->
      groq_client self <> None
      /\ (genai_model self = None
          \/ exists e, gemini_reply w prompt sys = Raise e)).
Proof.
  unfold trace, run. rewrite generate_text_cases.
  unfold gemini_event, groq_event, logged.
  destruct (genai_model self) as [g |], (groq_client self) as [q |];
    try destruct (gemini_reply w prompt sys) as [text | e]; cbn;
    repeat split; intros;
    repeat match goal with
      | H : _ \/ _ |- _ => destruct H
      | H : _ /\ _ |- _ => destruct H
      | H : ex _ |- _ => destruct H
      | H : False |- _ => destruct H
      end;
    try discriminate; try congruence; eauto 6.
Qed.

(** ** The error contract of the operations *)

Lemma http_500_only {A : Type} prefix (m : M A) w st :
  only_http_500 (fst (http_500 prefix m w st)).
Proof.
  rewrite http_500_run. cbn [fst].
  destruct (fst (m w st)); cbn; eauto.
Qed.

(** X2. Whatever the providers do, an operation of the service either
    returns or raises [HTTPException] with status 500: no other exception
    leaves [generate_brand], [generate_tagline], [generate_logo],
    [generate_content], [generate_product_description], [analyze_sentiment],
    [analyze_tagline], [get_colors] or [chat]. *)
Theorem operations_raise_only_http_500 settings self w :
  (forall req, only_http_500 (outcome (generate_brand settings self req) w))
  /\ (forall req,
        only_http_500 (outcome (generate_tagline settings self req) w))
  /\ (forall req, only_http_500 (outcome (generate_logo settings self req) w))
  /\ (forall req,
        only_http_500 (outcome (generate_content settings self req) w))
  /\ (forall req,
        only_http_500
          (outcome (generate_product_description settings self req) w))
  /\ (forall req,
        only_http_500 (outcome (analyze_sentiment settings self req) w))
  /\ (forall req,
        only_http_500 (outcome (analyze_tagline settings self req) w))
  /\ (forall req, only_http_500 (outcome (get_colors settings self req) w))
  /\ (forall req, only_http_500 (outcome (chat settings self req) w)).
Proof.
  repeat split; intros req; apply http_500_only.
Qed.

(** X3. With no text provider configured, the five operations that go
    through the chain fail with status 500 and the message that no client
    is available, and they make no call. *)
Theorem chain_sites_without_provider settings self w :
  genai_model self = None ->
  groq_client self = None ->
  let failure :=
    (Raise (HTTPException 500
              "No working LLM client available (Gemini or Groq)"),
     initial) in
  (forall req, run (generate_brand settings self req) w = failure)
  /\ (forall req, run (generate_tagline settings self req) w = failure)
  /\ (forall req,
        run (generate_product_description settings self req) w = failure)
  /\ (forall req, run (analyze_sentiment settings self req) w = failure)
  /\ (forall req, run (analyze_tagline settings self req) w = failure).
Proof.
  intros Hg Hq failure.
  assert (H : forall prompt sys (finish : string -> M json),
             run (http_500 ""
                    (result <- _generate_text settings self prompt sys ;;
                     finish result)%py) w
             = failure).
  { intros prompt sys finish. unfold run, http_500, try_except.
    assert (E : _generate_text settings self prompt sys w initial
                = (Raise no_client_error, initial))
      by now rewrite generate_text_cases, Hg, Hq.
    now rewrite (bind_raise _ _ _ _ _ _ E). }
  repeat split; intros req; apply H.
Qed.

Lemma chain_sites_without_provider_witness :
  run (analyze_sentiment Samples.settings0 Samples.bare_service
         Samples.sentiment_request) Samples.all_down
  = (Raise (HTTPException 500
              "No working LLM client available (Gemini or Groq)"),
     initial).
Proof.
  refine (proj1 (proj2 (proj2 (proj2
            (chain_sites_without_provider Samples.settings0
               Samples.bare_service Samples.all_down _ _))))
            Samples.sentiment_request); reflexivity.
Defined.


(** ** What the operations add to the log *)

Section Appends.

Variable P : event -> Prop.

Lemma appends_ret {A : Type} (a : A) : appends P (ret a).
Proof.
  intros w st. split; [apply Nat.le_refl |].
  exists []. split; [now rewrite app_nil_r | constructor].
Qed.

Lemma appends_raise {A : Type} (e : exn) : appends P (@raise A e).
Proof.
  intros w st. split; [apply Nat.le_refl |].
  exists []. split; [now rewrite app_nil_r | constructor].
Qed.

Lemma appends_lift {A : Type} (r : result A) : appends P (lift r).
Proof. destruct r; [apply appends_ret | apply appends_raise]. Qed.

Lemma appends_consult {A : Type} (answer : env -> result A) :
  appends P (consult answer).
Proof.
  intros w st. split; [apply Nat.le_refl |].
  exists []. split; [now rewrite app_nil_r | constructor].
Qed.

Lemma appends_draw : appends P draw_uuid4.
Proof.
  intros w st. split; [cbn; lia |].
  exists []. split; [now rewrite app_nil_r | constructor].
Qed.

Lemma appends_call {A : Type} ev (answer : env -> result A) :
  P ev -> appends P (call ev answer).
Proof.
  intros H w st. split; [apply Nat.le_refl |].
  exists [ev]. split; [reflexivity | now constructor].
Qed.

Lemma appends_bind {A B : Type} (m : M A) (k : A -> M B) :
  appends P m -> (forall a, appends P (k a)) -> appends P (bind m k).
Proof.
  intros Hm Hk w st. unfold bind.
  destruct (Hm w st) as (Hu & evs & Hlog & Hev).
  destruct (m w st) as [[a | e] st1]; cbn [snd] in *.
  - destruct (Hk a w st1) as (Hu' & evs' & Hlog' & Hev').
    split; [lia |]. exists (evs ++ evs')%list.
    split; [now rewrite Hlog', Hlog, app_assoc | now apply Forall_app].
  - split; [exact Hu |]. now exists evs.
Qed.

Lemma appends_try_except {A : Type} (m : M A) (h : exn -> M A) :
  appends P m -> (forall e, appends P (h e)) -> appends P (try_except m h).
Proof.
  intros Hm Hh w st. unfold try_except.
  destruct (Hm w st) as (Hu & evs & Hlog & Hev).
  destruct (m w st) as [[a | e] st1]; cbn [snd] in *.
  - split; [exact Hu |]. now exists evs.
  - destruct (Hh e w st1) as (Hu' & evs' & Hlog' & Hev').
    split; [lia |]. exists (evs ++ evs')%list.
    split; [now rewrite Hlog', Hlog, app_assoc | now apply Forall_app].
Qed.

Lemma appends_http_500 {A : Type} prefix (m : M A) :
  appends P m -> appends P (http_500 prefix m).
Proof.
  intros Hm. apply appends_try_except; [exact Hm |].
  intros e. apply appends_raise.
Qed.

End Appends.

Lemma appends_weaken (P Q : event -> Prop) {A : Type} (m : M A) :
  (forall ev, P ev -> Q ev) -> appends P m -> appends Q m.
Proof.
  intros HPQ Hm w st. destruct (Hm w st) as (Hu & evs & Hlog & Hev).
  split; [exact Hu |]. exists evs. split; [exact Hlog |].
  eapply Forall_impl; eauto.
Qed.

Lemma appends_filter (P : event -> Prop) (p : event -> bool) {A : Type}
  (m : M A) w :
  (forall ev, P ev -> p ev = false) ->
  appends P m ->
  filter p (trace m w) = [].
Proof.
  intros HP Hm. unfold trace, run.
  destruct (Hm w initial) as (_ & evs & -> & Hev). cbn [log initial app].
  apply filter_none. eapply Forall_impl; eauto.
Qed.

(** The chain makes text calls only; so do the treatments of its text, which
    make none; so does a direct call to Groq. *)
Lemma appends_generate_text settings self prompt sys :
  appends text_call (_generate_text settings self prompt sys).
Proof.
  unfold _generate_text.
  apply appends_bind.
  - destruct (genai_model self); [| apply appends_ret].
    apply appends_try_except; [| intros e; apply appends_ret].
    apply appends_bind; [now apply appends_call | intros a; apply appends_ret].
  - intros [text |]; [apply appends_ret |].
    destruct (groq_client self); [| apply appends_raise].
    apply appends_try_except; [| intros e; apply appends_raise].
    unfold groq_create. now apply appends_call.
Qed.

Lemma appends_groq_create P settings messages temperature max_tokens :
  (forall ev, is_groq_event ev = true -> P ev) ->
  appends P (groq_create settings messages temperature max_tokens).
Proof. intros H. unfold groq_create. apply appends_call. now apply H. Qed.

Lemma appends_brand_finish P result : appends P (brand_finish result).
Proof.
  unfold brand_finish. apply appends_bind; [apply appends_lift |].
  intros names.
  destruct (negb (truthy names) && contains_char "," result)%bool;
    [apply appends_ret |].
  destruct names; apply appends_ret.
Qed.

Lemma appends_tagline_finish P req result :
  appends P (tagline_finish req result).
Proof.
  unfold tagline_finish. apply appends_bind; [apply appends_lift |].
  intros v. destruct (negb (truthy v)); apply appends_ret.
Qed.

Lemma appends_product_finish P result : appends P (product_finish result).
Proof.
  unfold product_finish. apply appends_bind; [apply appends_lift |].
  intros v. destruct (negb (truthy v)); apply appends_ret.
Qed.

Lemma appends_sentiment_finish P result : appends P (sentiment_finish result).
Proof.
  unfold sentiment_finish. apply appends_bind; [apply appends_lift |].
  intros v. destruct (negb (truthy v)); apply appends_ret.
Qed.

Lemma appends_analysis_finish P result : appends P (analysis_finish result).
Proof.
  unfold analysis_finish. apply appends_bind; [apply appends_lift |].
  intros v. destruct (negb (truthy v)); apply appends_ret.
Qed.

Lemma appends_chain_site settings self prompt sys (finish : string -> M json) :
  (forall result, appends text_call (finish result)) ->
  appends text_call
    (http_500 "" (result <- _generate_text settings self prompt sys ;;
                  finish result)%py).
Proof.
  intros H. apply appends_http_500, appends_bind;
    [apply appends_generate_text | exact H].
Qed.

Lemma appends_direct_site settings self messages temperature max_tokens
  (shape : string -> json) :
  appends text_call
    (http_500 ""
       (match groq_client self with
        | None => no_groq
        | Some _ =>
            text <- groq_create settings messages temperature max_tokens ;;
            ret (shape text)
        end)%py).
Proof.
  apply appends_http_500. destruct (groq_client self);
    [| apply appends_raise].
  apply appends_bind; [| intros a; apply appends_ret].
  apply appends_groq_create. now intros [].
Qed.

(** X5. The eight text operations never call an image model, never fetch a
    URL and never touch the file system, whatever the providers answer. *)
Theorem text_operations_stay_text settings self w :
  (forall req,
     filter is_image_event (trace (generate_brand settings self req) w) = [])
  /\ (forall req,
        filter is_image_event (trace (generate_tagline settings self req) w)
        = [])
  /\ (forall req,
        filter is_image_event (trace (generate_content settings self req) w)
        = [])
  /\ (forall req,
        filter is_image_event
          (trace (generate_product_description settings self req) w)
        = [])
  /\ (forall req,
        filter is_image_event (trace (analyze_sentiment settings self req) w)
        = [])
  /\ (forall req,
        filter is_image_event (trace (analyze_tagline settings self req) w)
        = [])
  /\ (forall req,
        filter is_image_event (trace (get_colors settings self req) w) = [])
  /\ (forall req,
        filter is_image_event (trace (chat settings self req) w) = []).
Proof.
  repeat split; intros req;
    apply (appends_filter text_call); try (intros ev H; exact H).
  - apply appends_chain_site. intros r. apply appends_brand_finish.
  - apply appends_chain_site. intros r. apply appends_tagline_finish.
  - apply appends_direct_site.
  - apply appends_chain_site. intros r. apply appends_product_finish.
  - apply appends_chain_site. intros r. apply appends_sentiment_finish.
  - apply appends_chain_site. intros r. apply appends_analysis_finish.
  - apply appends_direct_site.
  - unfold chat. apply appends_http_500.
    destruct (groq_client self); [| apply appends_raise].
    destruct (chat_history req); [| apply appends_raise].
    apply appends_bind; [| intros a; apply appends_ret].
    apply appends_groq_create. now intros [].
Qed.

(** The image part of [generate_logo] makes image calls only. *)
Lemma appends_try_models image_prompt models :
  forall last, appends image_call (try_models image_prompt models last).
Proof.
  induction models as [| [model steps] models IH]; intros last;
    [apply appends_ret |].
  cbn [try_models]. apply appends_bind.
  - apply appends_try_except; [| intros e; apply appends_ret].
    apply appends_bind; [now apply appends_call | intros a; apply appends_ret].
  - intros [img | e]; [apply appends_ret | apply IH].
Qed.

Lemma appends_pollinations image_prompt :
  appends image_call (pollinations image_prompt).
Proof.
  unfold pollinations.
  apply appends_try_except; [| intros e; apply appends_ret].
  apply appends_bind; [apply appends_draw |]. intros u.
  apply appends_bind; [now apply appends_call |]. intros response.
  destruct (fst response =? 200)%Z; [| apply appends_ret].
  apply appends_bind; [apply appends_consult | intros a; apply appends_ret].
Qed.

Lemma appends_save_logo img : appends image_call (save_logo img).
Proof.
  unfold save_logo.
  apply appends_bind; [now apply appends_call |]. intros _.
  apply appends_bind; [apply appends_draw |]. intros u.
  apply appends_bind; [now apply appends_call |]. intros _.
  apply appends_ret.
Qed.

Lemma generate_logo_parts settings self req :
  generate_logo settings self req
  = http_500 "Logo generation failed: "
      (match groq_client self with
       | None => no_groq
       | Some _ =>
           raw_prompt <- _generate_text settings self (concept_prompt req)
                           None ;;
           logo_image_part self req raw_prompt
       end)%py.
Proof. reflexivity. Qed.

Lemma appends_logo_image_part self req raw :
  appends image_call (logo_image_part self req raw).
Proof.
  unfold logo_image_part. destruct (hf_client self); [| apply appends_ret].
  apply appends_bind; [apply appends_try_models |]. intros tried.
  apply appends_bind.
  - destruct (fst tried); [apply appends_ret | apply appends_pollinations].
  - intros [img |]; [| apply appends_raise].
    apply appends_bind; [apply appends_save_logo | intros a; apply appends_ret].
Qed.

(** The log of [generate_logo] with Groq configured: the log of the chain,
    then image calls only. *)
Lemma generate_logo_log settings self req w q :
  groq_client self = Some q ->
  exists evs,
    trace (generate_logo settings self req) w
    = (trace (_generate_text settings self (concept_prompt req) None) w
       ++ evs)%list
    /\ Forall image_call evs.
Proof.
  intros Hq. unfold trace, run. rewrite generate_logo_parts, Hq.
  rewrite http_500_run. cbn [snd]. unfold bind.
  destruct (_generate_text settings self (concept_prompt req) None w initial)
    as [[raw | e] st].
  - destruct (appends_logo_image_part self req raw w st)
      as (_ & evs & Hlog & Hev).
    now exists evs.
  - exists []. split; [now rewrite app_nil_r | constructor].
Qed.

(** X4. [generate_logo] insists on the Groq client although it takes its
    text from the chain: without Groq it fails at once, with no call, even
    when Gemini and the image client are configured; and with Groq
    configured, when Gemini answers, Groq is not called at all. *)
Theorem generate_logo_needs_groq settings self req w :
  (groq_client self = None ->
   run (generate_logo settings self req) w
   = (Raise (HTTPException 500
               "Logo generation failed: Groq Client not initialized"),
      initial))
  /\ (forall q g raw,
        groq_client self = Some q ->
        genai_model self = Some g ->
        gemini_reply w (concept_prompt req) None = Return raw ->
        filter is_groq_event (trace (generate_logo settings self req) w)
        = []).
Proof.
  split.
  - intros Hq. unfold run, generate_logo. now rewrite Hq.
  - intros q g raw Hq Hg Hr.
    destruct (generate_logo_log settings self req w q Hq) as (evs & -> & Hev).
    unfold trace, run.
    rewrite (generate_text_first_provider settings self (concept_prompt req)
               None w initial g raw Hg Hr).
    cbn [snd logged log initial app]. unfold gemini_event.
    cbn [filter is_groq_event].
    apply filter_none. eapply Forall_impl; [| exact Hev].
    intros ev. unfold image_call. now destruct ev.
Qed.

(** X6. [generate_logo] consults the text chain once and first: its log is
    the log of the chain for the concept prompt, followed by image work only
    (model calls, the GET, the directory and the file). *)
Theorem generate_logo_text_then_images settings self req w q :
  groq_client self = Some q ->
  exists evs,
    trace (generate_logo settings self req) w
    = (trace (_generate_text settings self (concept_prompt req) None) w
       ++ evs)%list
    /\ filter is_image_event evs = evs
    /\ filter is_image_event
         (trace (_generate_text settings self (concept_prompt req) None) w)
       = [].
Proof.
  intros Hq.
  destruct (generate_logo_log settings self req w q Hq) as (evs & Hlog & Hev).
  exists evs. split; [exact Hlog |]. split.
  - clear Hlog. induction Hev as [| ev evs H _ IH]; [reflexivity |].
    cbn. unfold image_call in H. now rewrite H, IH.
  - apply (appends_filter text_call); [now intros ev H |].
    apply appends_generate_text.
Qed.

Lemma generate_logo_text_then_images_witness :
  exists evs,
    trace (generate_logo Samples.settings0 Samples.groq_and_hf
             Samples.logo_request) (Samples.images_down 404)
    = (trace (_generate_text Samples.settings0 Samples.groq_and_hf
                (concept_prompt Samples.logo_request) None)
         (Samples.images_down 404)
       ++ evs)%list
    /\ filter is_image_event evs = evs
    /\ filter is_image_event
         (trace (_generate_text Samples.settings0 Samples.groq_and_hf
                   (concept_prompt Samples.logo_request) None)
            (Samples.images_down 404))
       = [].
Proof.
  apply (generate_logo_text_then_images Samples.settings0 Samples.groq_and_hf
           Samples.logo_request (Samples.images_down 404) Samples.groq0).
  reflexivity.
Defined.

(** ** Extraction that succeeds *)

(** X7. A truthy extraction is returned without any check of its shape:
    [generate_product_description], [analyze_sentiment] and
    [analyze_tagline] return the extracted value itself, be it a list, a
    number or a string, and [generate_tagline] returns it under
    [taglines]. *)
Theorem truthy_extraction_passes_through settings self w text v :
  _extract_json text = Return v ->
  truthy v = true ->
  (forall req st,
     _generate_text settings self (tagline_prompt req) (Some tagline_system)
       w initial = (Return text, st) ->
     run (generate_tagline settings self req) w
     = (Return (JObj [("taglines", v)]), st))
  /\ (forall req st,
        _generate_text settings self (product_prompt req)
          (Some product_system) w initial = (Return text, st) ->
        run (generate_product_description settings self req) w
        = (Return v, st))
  /\ (forall req st,
        _generate_text settings self (sentiment_prompt req)
          (Some sentiment_system) w initial = (Return text, st) ->
        run (analyze_sentiment settings self req) w = (Return v, st))
  /\ (forall req st,
        _generate_text settings self (analysis_prompt req)
          (Some analysis_system) w initial = (Return text, st) ->
        run (analyze_tagline settings self req) w = (Return v, st)).
Proof.
  intros E T. repeat split; intros req st Hrun; unfold run.
  - unfold generate_tagline. rewrite (chain_site_run _ _ _ _ _ _ _ _ _ Hrun).
    unfold http_500, try_except, tagline_finish, bind, lift.
    rewrite E. cbn. now rewrite T.
  - unfold generate_product_description.
    rewrite (chain_site_run _ _ _ _ _ _ _ _ _ Hrun).
    unfold http_500, try_except, product_finish, bind, lift.
    rewrite E. cbn. now rewrite T.
  - unfold analyze_sentiment. rewrite (chain_site_run _ _ _ _ _ _ _ _ _ Hrun).
    unfold http_500, try_except, sentiment_finish, bind, lift.
    rewrite E. cbn. now rewrite T.
  - unfold analyze_tagline. rewrite (chain_site_run _ _ _ _ _ _ _ _ _ Hrun).
    unfold http_500, try_except, analysis_finish, bind, lift.
    rewrite E. cbn. now rewrite T.
Qed.

Lemma truthy_extraction_passes_through_witness :
  run (analyze_sentiment Samples.settings0 Samples.full_service
         Samples.sentiment_request)
    (Samples.both_answer "The score is [42]." "unused")
  = (Return (JArr [JInt 42]),
     logged initial
       [gemini_event (sentiment_prompt Samples.sentiment_request)
          (Some sentiment_system)]).
Proof.
  refine (proj1 (proj2 (proj2
            (truthy_extraction_passes_through Samples.settings0
               Samples.full_service
               (Samples.both_answer "The score is [42]." "unused")
               "The score is [42]." (JArr [JInt 42]) _ _)))
            Samples.sentiment_request _ _).
  - vm_compute. reflexivity.
  - reflexivity.
  - reflexivity.
Defined.

(** ** The image cascade when an image arrives *)

(** The loop stops at the first model that answers: the models before it
    were called and failed, the models after it are not called. *)
Lemma try_models_first_success w image_prompt err m img post :
  forall pre last st,
    (forall m', In m' pre ->
                hf_text_to_image w image_prompt (fst m') (snd m')
                = Raise (err m')) ->
    hf_text_to_image w image_prompt (fst m) (snd m) = Return img ->
    try_models image_prompt (pre ++ m :: post) last w st
    = (Return (Some img, fold_left (fun _ m' => Some (err m')) pre last),
       logged st (map (hf_event image_prompt) (pre ++ [m]))).
Proof.
  induction pre as [| [model steps] pre IH]; intros last st Hpre Hm.
  - destruct m as [model steps]. cbn [app try_models].
    unfold bind at 1, try_except, call at 1. unfold bind at 1.
    cbn [fst snd] in Hm. rewrite Hm. reflexivity.
  - cbn [app try_models]. unfold bind at 1, try_except, call at 1.
    unfold bind at 1.
    pose proof (Hpre (model, steps) (or_introl eq_refl)) as H1.
    cbn [fst snd] in H1. rewrite H1. unfold ret at 1.
    rewrite IH by (try exact Hm; intros m' Hm'; apply Hpre; now right).
    unfold logged. cbn [log uuids_drawn map fold_left app].
    now rewrite <- app_assoc.
Qed.

(** Saving when the directory and the file can be written. *)
Lemma save_logo_run img w st :
  path_mkdir w "static/generated_logos" = Return tt ->
  image_save w (logo_path (uuid4 w (uuids_drawn st))) img = Return tt ->
  save_logo img w st
  = (Return ("/" ++ logo_path (uuid4 w (uuids_drawn st)),
             Lib.b64encode (png_bytes img)),
     State (log st
            ++ [Mkdir "static/generated_logos";
                ImageSave (logo_path (uuid4 w (uuids_drawn st))) img])%list
       (S (uuids_drawn st))).
Proof.
  intros Hmk Hsave.
  unfold save_logo, bind, call, draw_uuid4, ret, logo_path in *.
  rewrite Hmk. cbn [log uuids_drawn String.append] in *. rewrite Hsave.
  now rewrite <- app_assoc.
Qed.

(** X8. [generate_logo] stops at the first image model that returns an
    image: the models before it were tried in order, the ones after it are
    not called, and nothing is fetched from the keyless endpoint. The image
    is written once; the [file_url] names that file and the inline image is
    the base64 text of the same bytes. *)
Theorem generate_logo_first_success settings self req w q h raw st
  pre m post img err :
  groq_client self = Some q ->
  hf_client self = Some h ->
  _generate_text settings self (concept_prompt req) None w initial
  = (Return raw, st) ->
  models_to_try = (pre ++ m :: post)%list ->
  (forall m', In m' pre ->
              hf_text_to_image w (image_prompt_of req raw) (fst m') (snd m')
              = Raise (err m')) ->
  hf_text_to_image w (image_prompt_of req raw) (fst m) (snd m) = Return img ->
  path_mkdir w "static/generated_logos" = Return tt ->
  image_save w (logo_path (uuid4 w 0)) img = Return tt ->
  run (generate_logo settings self req) w
  = (Return
       (logo_response (image_prompt_of req raw)
          (Some (Lib.b64encode (png_bytes img)))
          (Some ("/" ++ logo_path (uuid4 w 0)))),
     State
       (log st
        ++ map (hf_event (image_prompt_of req raw)) (pre ++ [m])
        ++ [Mkdir "static/generated_logos";
            ImageSave (logo_path (uuid4 w 0)) img])%list
       1).
Proof.
  intros Hq Hhf Hrun Hmodels Hpre Hm Hmk Hsave.
  destruct (generate_text_state _ _ _ _ _ _ _ _ Hrun) as (Hu & _).
  cbn in Hu.
  unfold run. rewrite generate_logo_parts, Hq.
  unfold http_500, try_except. rewrite (bind_run _ _ _ _ _ _ Hrun).
  unfold logo_image_part. rewrite Hhf, Hmodels.
  rewrite (bind_run _ _ _ _ _ _
             (try_models_first_success w _ err m img post pre None st
                Hpre Hm)).
  cbn [fst snd]. rewrite bind_ret.
  assert (Hsave' : image_save w
                     (logo_path
                        (uuid4 w
                           (uuids_drawn
                              (logged st
                                 (map (hf_event (image_prompt_of req raw))
                                    (pre ++ [m]))))))
                     img = Return tt)
    by (cbn [logged uuids_drawn]; now rewrite Hu).
  rewrite (bind_run _ _ _ _ _ _ (save_logo_run img w _ Hmk Hsave')).
  cbn [logged uuids_drawn log fst snd]. rewrite Hu, <- app_assoc.
  reflexivity.
Qed.

Lemma generate_logo_first_success_witness :
  run (generate_logo Samples.settings0 Samples.groq_and_hf
         Samples.logo_request) second_model_answers
  = (Return
       (logo_response
          (image_prompt_of Samples.logo_request "Prompt: cup, steam")
          (Some (Lib.b64encode "PNG bytes"))
          (Some ("/" ++ logo_path 271828182845))),
     State
       [groq_event Samples.settings0 (concept_prompt Samples.logo_request)
          None;
        hf_event (image_prompt_of Samples.logo_request "Prompt: cup, steam")
          ("ByteDance/SDXL-Lightning", 8%Z);
        hf_event (image_prompt_of Samples.logo_request "Prompt: cup, steam")
          ("runwayml/stable-diffusion-v1-5", 20%Z);
        Mkdir "static/generated_logos";
        ImageSave (logo_path 271828182845) (Image "PNG bytes")]
       1).
Proof.
  apply (generate_logo_first_success Samples.settings0 Samples.groq_and_hf
           Samples.logo_request second_model_answers Samples.groq0
           Samples.hf0 "Prompt: cup, steam"
           (logged initial
              [groq_event Samples.settings0
                 (concept_prompt Samples.logo_request) None])
           [("ByteDance/SDXL-Lightning", 8%Z)]
           ("runwayml/stable-diffusion-v1-5", 20%Z)
           [("segmind/SSD-1B", 20%Z); ("prompthero/openjourney", 20%Z)]
           (Image "PNG bytes") (fun m' => Samples.model_error (fst m')));
    try reflexivity.
  intros m' [<- | []]. reflexivity.
Defined.

(** X9. When every image model raises and the keyless endpoint returns an
    image, [generate_logo] succeeds with that image: after the four model
    calls and the one GET it writes the file, and it returns the file and
    the base64 text of the same bytes. *)
Theorem generate_logo_fallback_success settings self req w q h raw st err img :
  groq_client self = Some q ->
  hf_client self = Some h ->
  _generate_text settings self (concept_prompt req) None w initial
  = (Return raw, st) ->
  (forall m, In m models_to_try ->
             hf_text_to_image w (image_prompt_of req raw) (fst m) (snd m)
             = Raise (err m)) ->
  let url := pollinations_url (final_prompt_of (image_prompt_of req raw))
               (uuid4 w 0 mod 10000) in
  fallback_image w url = Some img ->
  path_mkdir w "static/generated_logos" = Return tt ->
  image_save w (logo_path (uuid4 w 1)) img = Return tt ->
  run (generate_logo settings self req) w
  = (Return
       (logo_response (image_prompt_of req raw)
          (Some (Lib.b64encode (png_bytes img)))
          (Some ("/" ++ logo_path (uuid4 w 1)))),
     State
       (log st
        ++ map (hf_event (image_prompt_of req raw)) models_to_try
        ++ [RequestsGet url 60;
            Mkdir "static/generated_logos";
            ImageSave (logo_path (uuid4 w 1)) img])%list
       2).
Proof.
  intros Hq Hhf Hrun Hfail url Himg Hmk Hsave.
  destruct (generate_text_state _ _ _ _ _ _ _ _ Hrun) as (Hu & _).
  cbn in Hu.
  pose proof (generate_logo_models_fail _ _ _ _ _ _ _ _ _ Hq Hhf Hrun Hfail)
    as Hlogo.
  cbn zeta in Hlogo. rewrite Hu in Hlogo. fold url in Hlogo.
  unfold run. rewrite Hlogo, Himg.
  unfold http_500, try_except.
  set (st2 := State (log st
                     ++ map (hf_event (image_prompt_of req raw)) models_to_try
                     ++ [RequestsGet url 60])%list 1).
  rewrite (bind_run _ _ _ _ _ _ (save_logo_run img w st2 Hmk Hsave)).
  unfold st2. cbn [uuids_drawn log fst snd]. unfold ret.
  now rewrite <- !app_assoc.
Qed.

Lemma generate_logo_fallback_success_witness :
  outcome (generate_logo Samples.settings0 Samples.groq_and_hf
             Samples.logo_request) fallback_answers
  = Return
      (logo_response
         (image_prompt_of Samples.logo_request "Prompt: cup, steam")
         (Some (Lib.b64encode "PNG bytes"))
         (Some ("/" ++ logo_path 271828182846))).
Proof.
  unfold outcome.
  rewrite (generate_logo_fallback_success Samples.settings0
             Samples.groq_and_hf Samples.logo_request fallback_answers
             Samples.groq0 Samples.hf0 "Prompt: cup, steam"
             (logged initial
                [groq_event Samples.settings0
                   (concept_prompt Samples.logo_request) None])
             (fun m => Samples.model_error (fst m)) (Image "PNG bytes")
             eq_refl eq_refl eq_refl (fun m _ => eq_refl) eq_refl eq_refl
             eq_refl).
  reflexivity.
Defined.

(** ** Chat *)

Lemma history_message_role msg :
  role (history_message msg) = if says_user msg then "user" else "assistant".
Proof.
  unfold history_message, says_user. cbn [role].
  destruct (dict_get "role" msg) as [[] |]; reflexivity.
Qed.

(** X10. [chat] sends one completion request: the history in its order,
    then the new message as the user, with at most 1000 tokens asked for.
    Every role it sends is [user] or [assistant]: an entry of the history
    whose role is not the string [user] (a system entry, an entry without
    role) goes out as [assistant]. *)
Theorem chat_sends_history settings self req w q history :
  groq_client self = Some q ->
  chat_history req = Some history ->
  let messages := chat_messages req history in
  trace (chat settings self req) w
  = [GroqChatCreate (groq_model settings) messages (Dec 0 7) (Some 1000%Z)]
  /\ List.length messages = S (List.length history)
  /\ nth_error messages (List.length history)
     = Some (Message "user" (JStr (chat_message req)))
  /\ (forall i msg,
        nth_error history i = Some msg ->
        nth_error messages i
        = Some (Message (if says_user msg then "user" else "assistant")
                  (match dict_get "content" msg with
                   | Some v => v
                   | None => JNull
                   end)))
  /\ Forall (fun m => role m = "user" \/ role m = "assistant") messages.
Proof.
  intros Hq Hh messages. repeat split.
  - unfold trace, run, chat. rewrite Hq, Hh, http_500_run. cbn [snd].
    unfold bind, groq_create, call. cbn [log initial app].
    now destruct (groq_chat_create w _ _ _ _).
  - unfold messages, chat_messages.
    rewrite length_app, length_map. cbn. lia.
  - unfold messages, chat_messages.
    rewrite nth_error_app2 by (rewrite length_map; lia).
    rewrite length_map, Nat.sub_diag. reflexivity.
  - intros i msg Hi. unfold messages, chat_messages.
    rewrite nth_error_app1
      by (rewrite length_map; apply nth_error_Some; congruence).
    rewrite nth_error_map, Hi. cbn [option_map].
    rewrite <- history_message_role. reflexivity.
  - unfold messages, chat_messages. apply Forall_app. split.
    + apply Forall_forall. intros m Hm. apply in_map_iff in Hm.
      destruct Hm as (msg & <- & _). rewrite history_message_role.
      destruct (says_user msg); auto.
    + repeat constructor.
Qed.

Lemma chat_sends_history_witness :
  trace (chat Samples.settings0 Samples.groq_only chat_request)
    (Samples.groq_answers "Fine.")
  = [GroqChatCreate "llama-3.3-70b-versatile"
       [Message "assistant" (JStr "be kind");
        Message "user" (JStr "hi");
        Message "assistant" (JStr "hello");
        Message "user" (JStr "And now?")]
       (Dec 0 7) (Some 1000%Z)].
Proof.
  refine (proj1 (chat_sends_history Samples.settings0 Samples.groq_only
                   chat_request (Samples.groq_answers "Fine.") Samples.groq0
                   [[("role", JStr "system"); ("content", JStr "be kind")];
                    [("role", JStr "user"); ("content", JStr "hi")];
                    [("content", JStr "hello")]]
                   _ _)); reflexivity.
Defined.

(** ** Brand names *)





(** ** Characters of the pieces that the string functions return *)

Lemma contains_char_app c a b :
  contains_char c (a ++ b) = (contains_char c a || contains_char c b)%bool.
Proof.
  induction a as [| x a IH]; [reflexivity |]. cbn. rewrite IH.
  now rewrite orb_assoc.
Qed.

Lemma contains_char_rev_onto c s acc :
  contains_char c (rev_onto s acc)
  = (contains_char c s || contains_char c acc)%bool.
Proof.
  revert acc. induction s as [| x s IH]; intros acc; [reflexivity |].
  cbn. rewrite IH. cbn. destruct (Ascii.eqb x c), (contains_char c s);
    reflexivity.
Qed.

Lemma contains_char_rev c s : contains_char c (PyStr.rev s) = contains_char c s.
Proof.
  unfold PyStr.rev. rewrite contains_char_rev_onto. cbn.
  now rewrite orb_false_r.
Qed.

(** Stripping only removes characters. *)
Lemma lstrip_keeps c :
  forall n s, String.length s <= n ->
              contains_char c (lstrip s) = true -> contains_char c s = true.
Proof.
  induction n as [| n IH]; intros [| x s1] Hlen; cbn [String.length] in Hlen;
    try lia; try (intros H; exact H).
  cbn [lstrip].
  destruct (is_ascii_space x).
  { intros H. cbn. rewrite (IH s1) by (trivial; lia). apply orb_true_r. }
  destruct s1 as [| x1 s2]; [intros H; exact H |].
  destruct ((code x =? 194) && ((code x1 =? 133) || (code x1 =? 160)))%N.
  { intros H. cbn. cbn [String.length] in Hlen.
    rewrite (IH s2) by (trivial; lia). now rewrite !orb_true_r. }
  destruct s2 as [| x2 s3]; [intros H; exact H |].
  match goal with |- context [if ?b then _ else _] => destruct b end;
    [| intros H; exact H].
  intros H. cbn. cbn [String.length] in Hlen.
  rewrite (IH s3) by (trivial; lia). now rewrite !orb_true_r.
Qed.

Lemma lstrip_reversed_keeps c :
  forall n s, String.length s <= n ->
              contains_char c (lstrip_reversed s) = true ->
              contains_char c s = true.
Proof.
  induction n as [| n IH]; intros [| x s1] Hlen; cbn [String.length] in Hlen;
    try lia; try (intros H; exact H).
  cbn [lstrip_reversed].
  destruct (is_ascii_space x).
  { intros H. cbn. rewrite (IH s1) by (trivial; lia). apply orb_true_r. }
  destruct s1 as [| x1 s2]; [intros H; exact H |].
  destruct ((code x1 =? 194) && ((code x =? 133) || (code x =? 160)))%N.
  { intros H. cbn. cbn [String.length] in Hlen.
    rewrite (IH s2) by (trivial; lia). now rewrite !orb_true_r. }
  destruct s2 as [| x2 s3]; [intros H; exact H |].
  match goal with |- context [if ?b then _ else _] => destruct b end;
    [| intros H; exact H].
  intros H. cbn. cbn [String.length] in Hlen.
  rewrite (IH s3) by (trivial; lia). now rewrite !orb_true_r.
Qed.

Lemma strip_keeps c s :
  contains_char c (strip s) = true -> contains_char c s = true.
Proof.
  unfold strip, rstrip. rewrite contains_char_rev. intros H.
  apply (lstrip_reversed_keeps c _ _ (Nat.le_refl _)) in H.
  rewrite contains_char_rev in H.
  now apply (lstrip_keeps c _ _ (Nat.le_refl _)).
Qed.

Lemma split_onto_keeps c sep :
  forall s cur p,
    In p (split_onto sep s cur) ->
    contains_char c p = true ->
    contains_char c s = true \/ contains_char c cur = true.
Proof.
  induction s as [| x s IH]; intros cur p Hin Hp; cbn in Hin.
  - destruct Hin as [<- | []]. right. now rewrite contains_char_rev in Hp.
  - destruct (Ascii.eqb x sep).
    + destruct Hin as [<- | Hin].
      * right. now rewrite contains_char_rev in Hp.
      * destruct (IH _ _ Hin Hp) as [H | H]; [| discriminate H].
        left. cbn. rewrite H. apply orb_true_r.
    + destruct (IH _ _ Hin Hp) as [H | H].
      * left. cbn. rewrite H. apply orb_true_r.
      * cbn in H. apply orb_true_iff in H. destruct H as [H | H].
        -- left. cbn. now rewrite H.
        -- now right.
Qed.

Lemma split_keeps c sep s p :
  In p (split sep s) -> contains_char c p = true -> contains_char c s = true.
Proof.
  intros Hin Hp. destruct (split_onto_keeps c sep s EmptyString p Hin Hp)
    as [H | H]; [exact H | discriminate H].
Qed.

Lemma remove_keeps c old :
  forall s skip,
    contains_char c (replace_from old EmptyString skip s) = true ->
    contains_char c s = true.
Proof.
  induction s as [| x s IH]; intros skip H; [exact H |].
  cbn [replace_from] in H. cbn. destruct skip as [| k].
  - destruct (startswith old (String x s)).
    + cbn [String.append] in H. rewrite (IH _ H). apply orb_true_r.
    + cbn in H. apply orb_true_iff in H. destruct H as [-> | H];
        [reflexivity |]. rewrite (IH _ H). apply orb_true_r.
  - rewrite (IH _ H). apply orb_true_r.
Qed.

Lemma startswith_char_contains c s :
  startswith (String c EmptyString) s = true -> contains_char c s = true.
Proof.
  destruct s as [| x s]; [discriminate |]. cbn.
  rewrite andb_true_r. rewrite Ascii.eqb_sym. now intros ->.
Qed.

(** ** The colour palette *)

Lemma parse_colors_hash text :
  Forall (fun c => startswith "#" c = true) (parse_colors text).
Proof.
  unfold parse_colors. apply Forall_forall. intros c Hc.
  apply in_map_iff in Hc. destruct Hc as (p & <- & Hp).
  apply filter_In in Hp. now destruct Hp.
Qed.

Lemma parse_colors_without_hash text :
  contains_char "#" text = false -> parse_colors text = [].
Proof.
  intros Hno. unfold parse_colors.
  destruct (filter _ _) as [| p ps] eqn:E; [reflexivity |].
  assert (Hp : In p (p :: ps)) by now left.
  rewrite <- E in Hp. apply filter_In in Hp. destruct Hp as [Hin Hstart].
  apply startswith_char_contains, strip_keeps in Hstart.
  apply (split_keeps _ _ _ _ Hin) in Hstart.
  apply remove_keeps in Hstart. congruence.
Qed.

(** X12. When Groq answers, [get_colors] returns the dict with the one key
    [colors]; every colour in it begins with a hash sign, there are no more
    colours than comma-separated pieces in the answer, and an answer
    without any hash sign gives the empty palette. The one call made asks
    for temperature 0.5. *)
Theorem get_colors_palette settings self req w q text :
  groq_client self = Some q ->
  groq_chat_create w (groq_model settings)
    [Message "user" (JStr (colors_prompt req))] (Dec 0 5) None
  = Return text ->
  exists colors,
    run (get_colors settings self req) w
    = (Return (JObj [("colors", JArr (map JStr colors))]),
       logged initial
         [GroqChatCreate (groq_model settings)
            [Message "user" (JStr (colors_prompt req))] (Dec 0 5) None])
    /\ Forall (fun c => startswith "#" c = true) colors
    /\ List.length colors
       <= List.length (split "," (replace nl EmptyString text))
    /\ (contains_char "#" text = false -> colors = []).
Proof.
  intros Hq Hr. exists (parse_colors text). repeat split.
  - unfold run, get_colors, http_500, try_except, bind, groq_create, call.
    now rewrite Hq, Hr.
  - apply parse_colors_hash.
  - unfold parse_colors. rewrite length_map. apply filter_length_le.
  - apply parse_colors_without_hash.
Qed.

Lemma get_colors_palette_witness :
  exists colors,
    run (get_colors Samples.settings0 Samples.groq_only
           (mkColorsRequest "a tea house"))
      (Samples.groq_answers "#FF0000, #00FF00, blue, #0000FF")
    = (Return (JObj [("colors", JArr (map JStr colors))]),
       logged initial
         [GroqChatCreate (groq_model Samples.settings0)
            [Message "user"
               (JStr (colors_prompt (mkColorsRequest "a tea house")))]
            (Dec 0 5) None])
    /\ Forall (fun c => startswith "#" c = true) colors
    /\ List.length colors
       <= List.length
            (split "," (replace nl EmptyString
                          "#FF0000, #00FF00, blue, #0000FF"))
    /\ (contains_char "#" "#FF0000, #00FF00, blue, #0000FF" = false ->
        colors = []).
Proof.
  apply (get_colors_palette Samples.settings0 Samples.groq_only
           (mkColorsRequest "a tea house")
           (Samples.groq_answers "#FF0000, #00FF00, blue, #0000FF")
           Samples.groq0); reflexivity.
Defined.

(** ** What the pattern of the extractor finds *)

Lemma through_last_none d s :
  through_last (fun a => Ascii.eqb a d) s = None <-> contains_char d s = false.
Proof.
  induction s as [| x s IH]; [now split |]. cbn.
  destruct (through_last _ s) as [m |].
  - split; [discriminate |]. intros H. apply orb_false_iff in H.
    destruct H as [_ H]. apply IH in H. discriminate H.
  - destruct (Ascii.eqb x d); [now split |]. cbn. split; [| reflexivity].
    intros _. now apply IH.
Qed.


Lemma through_last_some p :
  forall s m,
    through_last p s = Some m ->
    exists body d post,
      m = body ++ String d EmptyString
      /\ p d = true
      /\ s = m ++ post
      /\ through_last p post = None.
Proof.
  induction s as [| x s IH]; intros m H; [discriminate |]. cbn in H.
  destruct (through_last p s) as [m' |] eqn:E.
  - injection H as <-. destruct (IH m' eq_refl) as (body & d & post & -> & Hd & Hs & Hn).
    exists (String x body), d, post. repeat split; trivial.
    cbn. now rewrite <- Hs.
  - destruct (p x) eqn:Hx; [| discriminate]. injection H as <-.
    exists EmptyString, x, s. now repeat split.
Qed.




Lemma bracket_span_shape :
  forall s m,
    bracket_span s = Some m ->
    exists pre o body d post,
      s = pre ++ m ++ post
      /\ m = String o (body ++ String d EmptyString)
      /\ closer_of o = Some d
      /\ contains_char d post = false.
Proof.
  induction s as [| x s IH]; intros m H; [discriminate |].
  cbn [bracket_span] in H.
  assert (Hrec : bracket_span s = Some m ->
                 exists pre o body d post,
                   String x s = pre ++ m ++ post
                   /\ m = String o (body ++ String d EmptyString)
                   /\ closer_of o = Some d
                   /\ contains_char d post = false).
  { intros H'. destruct (IH m H') as (pre & o & body & d & post & -> & Hm).
    now exists (String x pre), o, body, d, post. }
  destruct (closer_of x) as [d |] eqn:Hx; [| now apply Hrec].
  destruct (through_last _ s) as [m' |] eqn:E; [| now apply Hrec].
  injection H as <-.
  destruct (through_last_some _ _ _ E)
    as (body & d' & post & -> & Hd & Hs & Hn).
  apply Ascii.eqb_eq in Hd. subst d'.
  exists EmptyString, x, body, d, post. repeat split; trivial.
  - cbn. now rewrite <- Hs.
  - now apply through_last_none.
Qed.

(** X14. Whatever the pattern of the extractor finds is a piece of the text
    that starts with an opening bracket and ends with the closing bracket
    of the same kind, and no closing bracket of that kind occurs after it
    in the text. *)
Theorem search_finds_bracketed_piece text m :
  Re.search Re.json_pattern text = Some m ->
  exists pre o body d post,
    text = pre ++ m ++ post
    /\ m = String o (body ++ String d EmptyString)
    /\ closer_of o = Some d
    /\ contains_char d post = false.
Proof.
  rewrite search_json_pattern. apply bracket_span_shape.
Qed.

Lemma search_finds_bracketed_piece_witness :
  exists pre o body d post,
    "a [1] b [2] c" = pre ++ "[1] b [2]" ++ post
    /\ "[1] b [2]" = String o (body ++ String d EmptyString)
    /\ closer_of o = Some d
    /\ contains_char d post = false.
Proof.
  apply (search_finds_bracketed_piece "a [1] b [2] c" "[1] b [2]").
  reflexivity.
Defined.

(** ** Cutting the prompt *)

Lemma take_continuation_prefix s :
  exists rest, s = take_continuation s ++ rest /\ starts_character rest.
Proof.
  induction s as [| c s (rest & IH & Hr)]; [now exists EmptyString |].
  cbn. destruct (is_continuation c) eqn:E.
  - exists rest. cbn. now rewrite <- IH.
  - now exists (String c s).
Qed.

(** A slice is a prefix, and a slice of at least one character ends between
    two characters. *)
Lemma py_take_prefix s :
  forall n, exists rest,
    s = py_take n s ++ rest /\ (0 < n -> starts_character rest).
Proof.
  induction s as [| c s IH]; intros [| n].
  - now exists EmptyString.
  - now exists EmptyString.
  - exists (String c s). split; [reflexivity | lia].
  - cbn [py_take]. destruct (is_continuation c).
    + destruct (IH (S n)) as (rest & Hs & Hr).
      exists rest. cbn [String.append]. now rewrite <- Hs.
    + destruct n as [| n].
      * destruct (take_continuation_prefix s) as (rest & Hs & Hr).
        exists rest. cbn [String.append]. now rewrite <- Hs.
      * destruct (IH (S n)) as (rest & Hs & Hr).
        exists rest. cbn [String.append]. rewrite <- Hs.
        split; [reflexivity |]. intros _. apply Hr. lia.
Qed.

Lemma py_len_take_exact s : forall n, py_len (py_take n s) = Nat.min n (py_len s).
Proof.
  induction s as [| c s IH]; intros [| n]; cbn [py_take py_len];
    try reflexivity.
  destruct (is_continuation c) eqn:E; cbn [py_len]; rewrite E.
  - apply (IH (S n)).
  - destruct n as [| n].
    + now rewrite py_len_take_continuation.
    + rewrite (IH (S n)). reflexivity.
Qed.

(** X15. The prompt sent to the keyless endpoint is the engineered prompt
    with its fixed ending, cut to its first 400 characters: it is a prefix
    of that text, it has exactly min(400, length) characters, it is the
    whole text when that has at most 400 characters, and the cut never
    falls inside a multi-byte character. *)
Theorem final_prompt_is_cut_prefix image_prompt :
  let full := image_prompt ++ ", vector art, centered, no text" in
  (exists rest,
     full = final_prompt_of image_prompt ++ rest /\ starts_character rest)
  /\ py_len (final_prompt_of image_prompt) = Nat.min 400 (py_len full)
  /\ (py_len full <= 400 -> final_prompt_of image_prompt = full).
Proof.
  intros full. unfold final_prompt_of. fold full.
  destruct (Nat.ltb_spec 400 (py_len full)) as [Hlong | Hshort].
  - split; [| split].
    + destruct (py_take_prefix full 400) as (rest & Hs & Hr).
      exists rest. split; [exact Hs | apply Hr; lia].
    + apply py_len_take_exact.
    + lia.
  - split; [| split].
    + exists EmptyString. split; [| exact I].
      clear. induction full as [| c s IH]; cbn; congruence.
    + lia.
    + reflexivity.
Qed.

(** ** The URL of the keyless endpoint *)

Lemma quote_char_roundtrip c s :
  unquote (Lib.quote (String c s)) = String c (unquote (Lib.quote s)).
Proof.
  destruct c as [[] [] [] [] [] [] [] []]; reflexivity.
Qed.

Lemma unquote_quote s : unquote (Lib.quote s) = s.
Proof.
  induction s as [| c s IH]; [reflexivity |].
  now rewrite quote_char_roundtrip, IH.
Qed.

Lemma quote_char_alphabet c s d :
  Lib.quote_safe d = false ->
  d <> "%"%char ->
  contains_char d (Lib.quote (String c s)) = contains_char d (Lib.quote s).
Proof.
  intros Hd Hp.
  assert (E : forall x, Lib.quote_safe x = true -> Ascii.eqb x d = false).
  { intros x Hx. apply Ascii.eqb_neq. intros ->. congruence. }
  assert (E' : Ascii.eqb "%" d = false) by (apply Ascii.eqb_neq; congruence).
  cbn [Lib.quote]. destruct (Lib.quote_safe c) eqn:Hc.
  - cbn [contains_char]. now rewrite (E c Hc).
  - cbn [contains_char]. rewrite E'.
    rewrite !E; [reflexivity | |];
      clear; destruct c as [[] [] [] [] [] [] [] []]; reflexivity.
Qed.

Lemma append_length a b :
  String.length (a ++ b) = String.length a + String.length b.
Proof. induction a as [| c a IH]; cbn; congruence. Qed.

Lemma append_inv_head p a b : p ++ a = p ++ b -> a = b.
Proof. induction p as [| c p IH]; cbn; [easy | intros [= H]; auto]. Qed.

Lemma append_inv_tail t : forall a b, a ++ t = b ++ t -> a = b.
Proof.
  induction a as [| c a IH]; intros [| d b] H; cbn in H.
  - reflexivity.
  - apply (f_equal String.length) in H. cbn in H.
    rewrite append_length in H. lia.
  - apply (f_equal String.length) in H. cbn in H.
    rewrite append_length in H. lia.
  - injection H as -> H. f_equal. now apply IH.
Qed.

(** X16. The prompt is safely embedded in the URL of the keyless endpoint:
    its encoding holds only letters, digits, the characters [_.-~/] and
    percent signs, so no space, quote, question mark, ampersand or hash of
    the prompt reaches the URL; and the encoding loses nothing, two
    different prompts give two different URLs for the same seed. *)
Theorem pollinations_url_embeds_prompt :
  (forall s d,
     Lib.quote_safe d = false -> d <> "%"%char ->
     contains_char d (Lib.quote s) = false)
  /\ (forall a b, Lib.quote a = Lib.quote b -> a = b)
  /\ (forall p p' seed,
        pollinations_url p seed = pollinations_url p' seed -> p = p').
Proof.
  assert (Hinj : forall a b, Lib.quote a = Lib.quote b -> a = b).
  { intros a b H. rewrite <- (unquote_quote a), <- (unquote_quote b).
    now rewrite H. }
  repeat split.
  - intros s d Hd Hp. induction s as [| c s IH]; [reflexivity |].
    now rewrite quote_char_alphabet.
  - exact Hinj.
  - intros p p' seed H. unfold pollinations_url in H.
    apply append_inv_head, append_inv_tail in H. now apply Hinj.
Qed.

(** ** The constructor *)

(** X17. [AIService.__init__] returns a service exactly when [HF_API_KEY]
    is a non-empty string, and that service has an image client; otherwise
    it raises [AttributeError] for [HUGGINGFACE_TOKEN]. In the service the
    Groq client is there exactly when [GROQ_API_KEY] is non-empty, and the
    Gemini model exactly when [GOOGLE_API_KEY] is non-empty and the Gemini
    library could be set up: a failure of that set-up is swallowed. *)
Theorem init_outcome settings genai_setup :
  match __init__ settings genai_setup with
  | Return self =>
      str_truthy (HF_API_KEY settings) = true
      /\ hf_client self <> None
      /\ (groq_client self <> None
          <-> str_truthy (GROQ_API_KEY settings) = true)
      /\ (genai_model self <> None
          <-> str_truthy (GOOGLE_API_KEY settings) = true
              /\ exists u, genai_setup = Return u)
  | Raise e =>
      str_truthy (HF_API_KEY settings) = false
      /\ e = LibraryError "AttributeError"
               "'Settings' object has no attribute 'HUGGINGFACE_TOKEN'"
  end.
Proof.
  unfold __init__, str_truthy.
  destruct (HF_API_KEY settings) as [k |]; [| now split].
  destruct (is_empty k); [now split |]. cbn [hf_client groq_client genai_model negb].
  split; [reflexivity |]. split; [discriminate |]. split.
  - destruct (GROQ_API_KEY settings) as [g |]; [| now split].
    destruct (is_empty g); now split.
  - destruct (GOOGLE_API_KEY settings) as [g |]; [| split; [easy | now intros [H _]]].
    destruct (is_empty g); cbn [negb]; [split; [easy | now intros [H _]] |].
    destruct genai_setup as [u | e].
    + split; [intros _; split; [reflexivity | now exists u] | discriminate].
    + split; [easy | now intros [_ [u H]]].
Qed.

(** ** Voice transcription *)

(** X18. When every step succeeds, [transcribe_voice] reads the upload,
    writes it to a temporary [.m4a] file, reads that file back, sends it to
    Groq under the name of the upload, removes the temporary file and
    returns the text under [transcription]. *)
Theorem transcribe_voice_success self file w q content path audio text :
  groq_client self = Some q ->
  Voice.upload_read w = Return content ->
  Voice.temp_name w ".m4a" = Return path ->
  Voice.temp_write w path content = Return tt ->
  Voice.open_read w path = Return audio ->
  Voice.groq_transcribe w (Voice.filename file) audio = Return text ->
  Voice.os_unlink w path = Return tt ->
  Voice.transcribe_voice self file w []
  = (Return (JObj [("transcription", JStr text)]),
     [Voice.UploadRead;
      Voice.TempFileCreate ".m4a" path;
      Voice.TempFileWrite path content;
      Voice.FileRead path;
      Voice.GroqTranscribe (Voice.filename file) audio
        "distil-whisper-large-v3-en" "text";
      Voice.Unlink path]).
Proof.
  intros Hq H1 H2 H3 H4 H5 H6.
  unfold Voice.transcribe_voice, Voice.try_except, Voice.bind, Voice.call,
    Voice.ret.
  rewrite Hq, H1, H2. cbn [app]. rewrite H3. cbn [app]. rewrite H4.
  cbn [app]. rewrite H5. cbn [app]. rewrite H6. reflexivity.
Qed.

Lemma transcribe_voice_success_witness :
  Voice.transcribe_voice Samples.groq_only
    (Voice.mkUploadFile (Some "memo.m4a"))
    (Voice.sample_env "AUDIO" "/tmp/tmpab12.m4a" (Return "hello world")) []
  = (Return (JObj [("transcription", JStr "hello world")]),
     [Voice.UploadRead;
      Voice.TempFileCreate ".m4a" "/tmp/tmpab12.m4a";
      Voice.TempFileWrite "/tmp/tmpab12.m4a" "AUDIO";
      Voice.FileRead "/tmp/tmpab12.m4a";
      Voice.GroqTranscribe (Some "memo.m4a") "AUDIO"
        "distil-whisper-large-v3-en" "text";
      Voice.Unlink "/tmp/tmpab12.m4a"]).
Proof.
  apply (transcribe_voice_success Samples.groq_only
           (Voice.mkUploadFile (Some "memo.m4a"))
           (Voice.sample_env "AUDIO" "/tmp/tmpab12.m4a" (Return "hello world"))
           Samples.groq0); reflexivity.
Defined.

(** X19. When the transcription call raises, [transcribe_voice] fails with
    status 500 and the message of the error, and the temporary file it had
    created is not removed: the log holds its creation and no [Unlink]. *)
Theorem transcribe_voice_leaves_file self file w q content path audio e :
  groq_client self = Some q ->
  Voice.upload_read w = Return content ->
  Voice.temp_name w ".m4a" = Return path ->
  Voice.temp_write w path content = Return tt ->
  Voice.open_read w path = Return audio ->
  Voice.groq_transcribe w (Voice.filename file) audio = Raise e ->
  fst (Voice.transcribe_voice self file w [])
  = Raise (HTTPException 500 (str_of_exn e))
  /\ In (Voice.TempFileCreate ".m4a" path)
       (snd (Voice.transcribe_voice self file w []))
  /\ filter Voice.is_unlink (snd (Voice.transcribe_voice self file w [])) = [].
Proof.
  intros Hq H1 H2 H3 H4 H5.
  unfold Voice.transcribe_voice, Voice.try_except, Voice.bind, Voice.call,
    Voice.ret, Voice.raise.
  rewrite Hq, H1, H2. cbn [app]. rewrite H3. cbn [app]. rewrite H4.
  cbn [app]. rewrite H5. cbn. auto.
Qed.

Lemma transcribe_voice_leaves_file_witness :
  fst (Voice.transcribe_voice Samples.groq_only
         (Voice.mkUploadFile (Some "memo.m4a"))
         (Voice.sample_env "AUDIO" "/tmp/tmpab12.m4a"
            (Raise Samples.rate_error)) [])
  = Raise (HTTPException 500 "rate limit reached")
  /\ In (Voice.TempFileCreate ".m4a" "/tmp/tmpab12.m4a")
       (snd (Voice.transcribe_voice Samples.groq_only
               (Voice.mkUploadFile (Some "memo.m4a"))
               (Voice.sample_env "AUDIO" "/tmp/tmpab12.m4a"
                  (Raise Samples.rate_error)) []))
  /\ filter Voice.is_unlink
       (snd (Voice.transcribe_voice Samples.groq_only
               (Voice.mkUploadFile (Some "memo.m4a"))
               (Voice.sample_env "AUDIO" "/tmp/tmpab12.m4a"
                  (Raise Samples.rate_error)) []))
     = [].
Proof.
  apply (transcribe_voice_leaves_file Samples.groq_only
           (Voice.mkUploadFile (Some "memo.m4a"))
           (Voice.sample_env "AUDIO" "/tmp/tmpab12.m4a"
              (Raise Samples.rate_error))
           Samples.groq0 "AUDIO" "/tmp/tmpab12.m4a" "AUDIO"
           Samples.rate_error); reflexivity.
Defined.

(** X20. [transcribe_voice] removes a temporary file only after a
    transcription that returned, and never a file other than the one it
    created; without a Groq client it fails with status 500 before reading
    the upload. *)
Theorem transcribe_voice_unlinks_late self file w :
  (forall p,
     In (Voice.Unlink p) (snd (Voice.transcribe_voice self file w [])) ->
     Voice.temp_name w ".m4a" = Return p
     /\ exists audio text,
          Voice.open_read w p = Return audio
          /\ Voice.groq_transcribe w (Voice.filename file) audio
             = Return text)
  /\ (groq_client self = None ->
      Voice.transcribe_voice self file w []
      = (Raise (HTTPException 500 "Groq Client not initialized"), [])).
Proof.
  split.
  - intros p.
    unfold Voice.transcribe_voice, Voice.try_except, Voice.bind, Voice.call,
      Voice.ret, Voice.raise.
    destruct (groq_client self); [| intros []].
    destruct (Voice.upload_read w) as [content | e];
      [| cbn; intros [H | []]; discriminate H].
    destruct (Voice.temp_name w ".m4a") as [path | e];
      [| cbn; intros [H | []]; discriminate H].
    cbn [app].
    destruct (Voice.temp_write w path content);
      [| cbn; intros [H | [H | [H | []]]]; discriminate H].
    cbn [app].
    destruct (Voice.open_read w path) as [audio | e] eqn:Ho;
      [| cbn; intros [H | [H | [H | [H | []]]]]; discriminate H].
    cbn [app].
    destruct (Voice.groq_transcribe w (Voice.filename file) audio)
      as [text | e] eqn:Ht;
      [| cbn; intros [H | [H | [H | [H | [H | []]]]]]; discriminate H].
    cbn [app].
    assert (Hin : In (Voice.Unlink p)
                    [Voice.UploadRead; Voice.TempFileCreate ".m4a" path;
                     Voice.TempFileWrite path content; Voice.FileRead path;
                     Voice.GroqTranscribe (Voice.filename file) audio
                       "distil-whisper-large-v3-en" "text";
                     Voice.Unlink path] ->
                  Return path = Return p
                  /\ exists audio0 text0,
                       Voice.open_read w p = Return audio0
                       /\ Voice.groq_transcribe w (Voice.filename file) audio0
                          = Return text0).
    { cbn. intros [H | [H | [H | [H | [H | [H | []]]]]]]; try discriminate H.
      injection H as Hp. subst p. split; [reflexivity |].
      exists audio, text. now split. }
    destruct (Voice.os_unlink w path); exact Hin.
  - intros Hq. unfold Voice.transcribe_voice, Voice.try_except. now rewrite Hq.
Qed.

(** ** Errors of the providers reach the caller *)

Lemma generate_text_groq_error settings self prompt sys w q e :
  groq_client self = Some q ->
  (forall p, exists e', genai_generate_content w p = Raise e') ->
  (forall model messages t mt, groq_chat_create w model messages t mt
                               = Raise e) ->
  outcome (_generate_text settings self prompt sys) w = Raise e.
Proof.
  intros Hq Hgem Hgroq. unfold outcome, run.
  rewrite generate_text_cases, Hq. unfold gemini_reply, groq_reply.
  destruct (Hgem (full_prompt_of sys prompt)) as (e' & ->).
  rewrite Hgroq. now destruct (genai_model self).
Qed.

(** X21. When Groq is configured and its calls raise [e], Gemini being
    absent or failing too, every operation fails with status 500 and the
    message of [e] as the detail ([generate_logo] puts its own label
    before it): the text of the provider error is handed to the caller. *)
Theorem operations_surface_groq_error settings self w q e :
  groq_client self = Some q ->
  (forall p, exists e', genai_generate_content w p = Raise e') ->
  (forall model messages t mt, groq_chat_create w model messages t mt
                               = Raise e) ->
  let failure := Raise (HTTPException 500 (str_of_exn e)) in
  (forall req, outcome (generate_brand settings self req) w = failure)
  /\ (forall req, outcome (generate_tagline settings self req) w = failure)
  /\ (forall req, outcome (generate_content settings self req) w = failure)
  /\ (forall req,
        outcome (generate_product_description settings self req) w = failure)
  /\ (forall req, outcome (analyze_sentiment settings self req) w = failure)
  /\ (forall req, outcome (analyze_tagline settings self req) w = failure)
  /\ (forall req, outcome (get_colors settings self req) w = failure)
  /\ (forall req history,
        chat_history req = Some history ->
        outcome (chat settings self req) w = failure)
  /\ (forall req,
        outcome (generate_logo settings self req) w
        = Raise (HTTPException 500
                   ("Logo generation failed: " ++ str_of_exn e))).
Proof.
  intros Hq Hgem Hgroq failure.
  assert (Hchain : forall prefix prompt sys (rest : string -> M json),
             outcome (http_500 prefix
                        (result <- _generate_text settings self prompt sys ;;
                         rest result)%py) w
             = Raise (HTTPException 500 (prefix ++ str_of_exn e))).
  { intros prefix prompt sys rest.
    pose proof (generate_text_groq_error settings self prompt sys w q e
                  Hq Hgem Hgroq) as H.
    unfold outcome, run in *. rewrite http_500_run. cbn [fst]. unfold bind.
    destruct (_generate_text settings self prompt sys w initial)
      as [r st]. cbn [fst] in H. now rewrite H. }
  assert (Hdirect : forall messages t mt (shape : string -> json),
             outcome (http_500 ""
                        (text <- groq_create settings messages t mt ;;
                         ret (shape text))%py) w
             = failure).
  { intros messages t mt shape. unfold outcome, run.
    rewrite http_500_run. cbn [fst]. unfold bind, groq_create, call.
    now rewrite Hgroq. }
  repeat split; intros req; try apply (Hchain "").
  - unfold generate_content. rewrite Hq. apply Hdirect.
  - unfold get_colors. rewrite Hq. apply Hdirect.
  - intros history Hh. unfold chat. rewrite Hq, Hh. apply Hdirect.
  - rewrite generate_logo_parts, Hq. apply Hchain.
Qed.

Lemma operations_surface_groq_error_witness :
  outcome (generate_tagline Samples.settings0 Samples.full_service
             Samples.tagline_request) Samples.all_down
  = Raise (HTTPException 500 "rate limit reached").
Proof.
  refine (proj1 (proj2 (operations_surface_groq_error Samples.settings0
                          Samples.full_service Samples.all_down Samples.groq0
                          Samples.rate_error _ _ _))
            Samples.tagline_request).
  - reflexivity.
  - intros p. exists Samples.quota_error. reflexivity.
  - intros model messages t mt. reflexivity.
Defined.

(** ** The engineered prompt *)

Lemma remove_char_all c :
  forall s,
    contains_char c (replace (String c EmptyString) EmptyString s) = false.
Proof.
  unfold replace. induction s as [| x s IH]; [reflexivity |].
  cbn [replace_from startswith String.length Nat.sub].
  rewrite andb_true_r. destruct (Ascii.eqb c x) eqn:E.
  - exact IH.
  - cbn [contains_char]. rewrite Ascii.eqb_sym, E. exact IH.
Qed.

(** X22. The prompt that [generate_logo] builds is [logo of], the
    description, the cleaned reply of the text chain and the fixed list of
    style words; the cleaned reply holds no double quote, whatever the
    provider wrote, and only characters of the reply. *)
Theorem image_prompt_fragment req raw :
  exists fragment,
    image_prompt_of req raw
    = "logo of " ++ logo_description req ++ ", " ++ fragment
      ++ ", vector, flattened, minimal, white background, high quality, 4k"
    /\ contains_char (ascii_of_nat 34) fragment = false
    /\ (forall c, contains_char c fragment = true ->
                  contains_char c raw = true).
Proof.
  exists (strip (replace dq EmptyString (replace "Prompt:" EmptyString raw))).
  split; [reflexivity |]. split.
  - destruct (contains_char _ (strip _)) eqn:E; [| reflexivity].
    apply strip_keeps in E. unfold dq in E.
    now rewrite remove_char_all in E.
  - intros c H. apply strip_keeps in H. unfold replace in H.
    now apply remove_keeps, remove_keeps in H.
Qed.

(** ** The search for a working image model *)

Lemma try_model_inference_run token model w l :
  Probe.try_model_inference token model w l
  = (Probe.works w model, (l ++ Probe.posts_for token w model)%list).
Proof.
  unfold Probe.try_model_inference, Probe.works, Probe.posts_for,
    Probe.answers_200.
  cbn [Probe.try_urls].
  destruct (Probe.post w (Probe.router_url model)) as [s1 | e1];
    [destruct (s1 =? 200)%Z; [reflexivity |] |];
    (destruct (Probe.post w (Probe.legacy_url model)) as [s2 | e2];
     [destruct (s2 =? 200)%Z |]); cbn; now rewrite <- app_assoc.
Qed.

(** X23. The probe of one model posts to the router endpoint first and to
    the legacy endpoint only when the router did not answer 200; it says
    that the model works exactly when one of the two answered 200, an
    exception of the network counting as a failure. The search stops at the
    first model that works: each model before it got its posts and then a
    pause of one second, the models after it are not contacted. *)
Theorem search_stops_at_first_working token w m post :
  forall pre l,
    (forall m', In m' pre -> Probe.works w m' = false) ->
    Probe.works w m = true ->
    Probe.search token (pre ++ m :: post) w l
    = (l
       ++ flat_map (fun m' => Probe.posts_for token w m' ++ [Probe.Sleep 1])
            pre
       ++ Probe.posts_for token w m)%list.
Proof.
  induction pre as [| m0 pre IH]; intros l Hpre Hm.
  - cbn [app Probe.search flat_map].
    now rewrite try_model_inference_run, Hm.
  - cbn [app Probe.search flat_map].
    rewrite try_model_inference_run.
    rewrite (Hpre m0 (or_introl eq_refl)). cbn [fst snd].
    rewrite IH by (try exact Hm; intros m' Hm'; apply Hpre; now right).
    now rewrite <- !app_assoc.
Qed.

Lemma search_stops_at_first_working_witness :
  Probe.search (Some "hf-key") Probe.models
    (Probe.only_legacy "runwayml/stable-diffusion-v1-5") []
  = [Probe.Post (Probe.router_url "stabilityai/stable-diffusion-2-1")
       "Bearer hf-key" "A modern minimal tech company logo" 20;
     Probe.Post (Probe.legacy_url "stabilityai/stable-diffusion-2-1")
       "Bearer hf-key" "A modern minimal tech company logo" 20;
     Probe.Sleep 1;
     Probe.Post (Probe.router_url "runwayml/stable-diffusion-v1-5")
       "Bearer hf-key" "A modern minimal tech company logo" 20;
     Probe.Post (Probe.legacy_url "runwayml/stable-diffusion-v1-5")
       "Bearer hf-key" "A modern minimal tech company logo" 20].
Proof.
  apply (search_stops_at_first_working (Some "hf-key")
           (Probe.only_legacy "runwayml/stable-diffusion-v1-5")
           "runwayml/stable-diffusion-v1-5"
           ["CompVis/stable-diffusion-v1-4"; "prompthero/openjourney";
            "stabilityai/stable-diffusion-xl-base-1.0"]
           ["stabilityai/stable-diffusion-2-1"] []).
  - intros m' [<- | []]. reflexivity.
  - reflexivity.
Defined.

(** X24. When no model works, the search contacts every model in the order
    of the list, both endpoints each, and pauses after each of them; the
    script ends without an error. *)
Theorem search_exhausts_the_list token w :
  forall models l,
    (forall m, In m models -> Probe.works w m = false) ->
    Probe.search token models w l
    = (l
       ++ flat_map
            (fun m =>
               [Probe.Post (Probe.router_url m) ("Bearer " ++ fmt token)
                  "A modern minimal tech company logo" 20;
                Probe.Post (Probe.legacy_url m) ("Bearer " ++ fmt token)
                  "A modern minimal tech company logo" 20;
                Probe.Sleep 1])
            models)%list.
Proof.
  induction models as [| m models IH]; intros l H.
  - cbn. now rewrite app_nil_r.
  - cbn [Probe.search flat_map]. rewrite try_model_inference_run.
    pose proof (H m (or_introl eq_refl)) as Hm. rewrite Hm. cbn [fst snd].
    rewrite IH by (intros m' Hm'; apply H; now right).
    unfold Probe.posts_for. unfold Probe.works in Hm.
    apply orb_false_iff in Hm. destruct Hm as [-> _].
    now rewrite <- !app_assoc.
Qed.

Lemma search_exhausts_the_list_witness :
  List.length
    (Probe.search None Probe.models
       (Probe.Env (fun _ => Return 503%Z)) [])
  = 15.
Proof.
  rewrite (search_exhausts_the_list None (Probe.Env (fun _ => Return 503%Z))
             Probe.models []).
  - reflexivity.
  - intros m _. reflexivity.
Defined.
